(** * dbrowser: the GTK shell (browser.py) and the Qt shell (qtbrowser.py)

    A shallow embedding of the two keyboard-driven browser shells.  The
    rendering engine, the toolkit and the helper processes (dmenu, tmux)
    are outside the repository: a call into them is recorded as an
    [Effect], and what they hand back is read from a [World] record.

    Python values are modelled as follows.
    - [str] is a list of Unicode code points ([N]); [lit] turns an ASCII
      literal of the source into such a list.
    - a value that may be [None] is an [option]; truthiness is [truthy].
    - [os.environ] is a finite map from variable names to strings.
    - a raised, uncaught exception is a constructor of a result type. *)

From Stdlib Require Import NArith ZArith QArith Ascii String.
From stdpp Require Import base option list strings gmap.

Abbreviation str := (list N) (only parsing).

(** An ASCII literal of the source as a list of code points. *)
Definition lit (s : string) : str :=
  N_of_ascii <$> String.list_ascii_of_string s.

#[global] Arguments lit : simpl never.

(** ** The Python runtime *)

(** The parts of the Unicode character database and of the interpreter
    configuration that the standard library consults and that are too
    large (or version dependent) to write out.  The ASCII range is
    spelled out below; these fields are asked about other code points
    only. *)
Record PyRuntime := {
  uni_isalnum : N -> bool;          (* str.isalnum on a code point >= 128 *)
  uni_decimal : N -> option N;      (* decimal digit value of a code point >= 128 *)
  int_max_str_digits : nat          (* sys.get_int_max_str_digits(); 0 = no limit *)
}.

Definition in_range (lo hi c : N) : bool := ((lo <=? c) && (c <=? hi))%N.

Definition ascii_isalnum (c : N) : bool :=
  in_range 48 57 c || in_range 65 90 c || in_range 97 122 c.

(** [c.isalnum()] for a one-character string. *)
Definition isalnum (R : PyRuntime) (c : N) : bool :=
  if (c <? 128)%N then ascii_isalnum c else uni_isalnum R c.

(** [c.isspace()]: the white space code points of the Unicode database. *)
Definition isspace (c : N) : bool :=
  in_range 9 13 c || in_range 28 32 c || (c =? 133)%N || (c =? 160)%N
  || (c =? 5760)%N || in_range 8192 8202 c || (c =? 8232)%N || (c =? 8233)%N
  || (c =? 8239)%N || (c =? 8287)%N || (c =? 12288)%N.

(** Truthiness of a string and of an optional string. *)
Definition nonempty (s : str) : bool :=
  match s with [] => false | _ :: _ => true end.

Definition truthy (v : option str) : bool :=
  match v with None => false | Some s => nonempty s end.

(** [a or b] on an optional string and a string. *)
Definition py_or (a : option str) (b : str) : str :=
  match a with Some s => if nonempty s then s else b | None => b end.

(** [s.strip()] *)
Fixpoint lstrip (s : str) : str :=
  match s with
  | [] => []
  | c :: r => if isspace c then lstrip r else s
  end.

Definition rstrip (s : str) : str := reverse (lstrip (reverse s)).

Definition strip (s : str) : str := rstrip (lstrip s).

(** [s.startswith(p)] and [s.startswith((p1, ..., pn))] *)
Fixpoint startswith (s p : str) {struct p} : bool :=
  match p, s with
  | [], _ => true
  | _ :: _, [] => false
  | a :: p', b :: s' => (a =? b)%N && startswith s' p'
  end.

Definition startswith_any (s : str) (ps : list str) : bool :=
  existsb (startswith s) ps.

(** [s.split(sep)] for a one-character separator: never empty. *)
Fixpoint split (sep : N) (s : str) : list str :=
  match s with
  | [] => [[]]
  | c :: r =>
      if (c =? sep)%N then [] :: split sep r
      else match split sep r with
           | [] => [[c]]
           | w :: ws => (c :: w) :: ws
           end
  end.

(** *** [int(s)]

    CPython first maps every non-ASCII white space to a blank and every
    non-ASCII decimal digit to its ASCII digit (any other non-ASCII code
    point, and DEL, makes the string invalid), then reads: blanks, an
    optional sign, digits with single underscores between them, blanks.
    [None] stands for [ValueError]. *)
Definition to_ascii_digit (R : PyRuntime) (c : N) : option N :=
  if (c <? 127)%N then Some c
  else if isspace c then Some 32%N
  else match uni_decimal R c with
       | Some d => if (d <? 10)%N then Some (48 + d)%N else None
       | None => None
       end.

Definition c_isspace (c : N) : bool := in_range 9 13 c || (c =? 32)%N.

Fixpoint skip_blanks (s : str) : str :=
  match s with
  | [] => []
  | c :: r => if c_isspace c then skip_blanks r else s
  end.

Definition is_digit (c : N) : bool := in_range 48 57 c.

(** Digits with single underscores between them; [prev] tells whether
    the previous character was a digit.  Returns the value, the number
    of digits and the rest of the input. *)
Fixpoint read_digits (s : str) (prev : bool) (acc : Z) (n : nat)
  : option (Z * nat * str) :=
  match s with
  | c :: r =>
      if is_digit c then
        read_digits r true (10 * acc + Z.of_N (c - 48))%Z (S n)
      else if (c =? 95)%N then
        if prev then
          match r with
          | d :: _ => if is_digit d then read_digits r false acc n else None
          | [] => None
          end
        else None
      else if prev then Some (acc, n, s) else None
  | [] => if prev then Some (acc, n, []) else None
  end.

Definition py_int (R : PyRuntime) (s : str) : option Z :=
  a ← mapM (to_ascii_digit R) s;
  let b := skip_blanks a in
  let '(neg, d) :=
    match b with
    | c :: r => if (c =? 45)%N then (true, r)
                else if (c =? 43)%N then (false, r) else (false, b)
    | [] => (false, b)
    end in
  '(v, n, rest) ← read_digits d false 0%Z 0;
  if nonempty (skip_blanks rest) then None
  else if bool_decide (int_max_str_digits R ≠ 0 ∧ int_max_str_digits R < n) then None
  else Some (if neg then (- v)%Z else v).

(** ** The process environment and the outside world *)

Record World := {
  environ : gmap string (list N);          (* os.environ *)
  expanduser : list N -> list N;           (* os.path.expanduser *)
  random53 : nat -> N;                     (* i-th random.random() is (random53 i mod 2^53) / 2^53 *)
  tmux_show_buffer : list N;               (* stdout of [tmux show-buffer] *)
  clipboard_text : option (list N);        (* text on the clipboard, if any *)
  dmenu : list (list N) -> list N -> list N; (* options, stdin |-> stdout of dmenu *)
  read_file : list N -> option (list N);   (* open(p).read(); None = FileNotFoundError *)
  web_uri : list N;                        (* URI of the page in the view *)
  web_title : list N                       (* title of the page in the view *)
}.

(** [os.getenv(name)] and [os.getenv(name, default)] *)
Definition getenv (w : World) (name : string) : option str :=
  environ w !! name.

Definition getenv_default (w : World) (name : string) (d : str) : str :=
  default d (environ w !! name).

(** ** Helpers defined alike in both files *)

(** browser.py 167-171, qtbrowser.py 144-147. *)
Definition url_schemes : list str :=
  [lit "http://"; lit "https://"; lit "ftp://"; lit "file://"].

Definition is_valid_url (text : option str) : bool :=
  if negb (truthy text) then false
  else startswith_any (default [] text) url_schemes.

(** The product of two doubles is the exact product rounded to 53
    significant bits, to nearest and to even on a tie.  [round_double x]
    is that rounding for a natural number [x]; scaling by a power of two
    commutes with it. *)
Definition round_double (x : N) : N :=
  let b := N.size x in
  if (b <=? 53)%N then x
  else
    let s := (b - 53)%N in
    let q := (x / 2 ^ s)%N in
    let r := (x mod 2 ^ s)%N in
    let half := (2 ^ (s - 1))%N in
    let q' := if (r <? half)%N then q
              else if (half <? r)%N then (q + 1)%N
              else if N.even q then q else (q + 1)%N in
    (q' * 2 ^ s)%N.

(** [random.choices(population, k=k)]: the i-th element is
    [population[floor(random() * n)]] with [n = len(population) + 0.0].
    [random()] is [k / 2^53] for a 53-bit integer [k] and [n] is exact
    for a length below 2^53, so the product is the double nearest to
    [k * n / 2^53]. *)
Definition random_index (w : World) (n : nat) (i : nat) : nat :=
  N.to_nat (round_double ((random53 w i mod 2 ^ 53) * N.of_nat n) / 2 ^ 53)%N.

Definition random_choices (w : World) (population : str) (k : nat) : str :=
  (fun i => population !!! random_index w (length population) i) <$> seq 0 k.

Definition ascii_lowercase : str := lit "abcdefghijklmnopqrstuvwxyz".
Definition digits : str := lit "0123456789".

Definition download_dir (w : World) : str :=
  expanduser w (getenv_default w "DBROWSER_DOWNLOAD_DIR" (lit "~/Downloads")).

Definition safe_char (R : PyRuntime) (c : N) : N :=
  if isalnum R c || bool_decide (c ∈ lit "-_") then c else 95%N.

(** browser.py 173-179, qtbrowser.py 149-154.  The directory is created
    on the way ([os.makedirs]); the callers below record that. *)
Definition get_save_path (R : PyRuntime) (w : World) (title ext : str) : str :=
  let safe_title := safe_char R <$> title in
  let rand_suffix := random_choices w (ascii_lowercase ++ digits) 7 in
  let path := download_dir w in
  path ++ lit "/" ++ safe_title ++ lit "__" ++ rand_suffix ++ lit "." ++ ext.

(** ** What a key handler does *)

(** Completion callbacks handed to the engine; they run later, on the
    same event loop, and are not part of the handler's own run. *)
Inductive Callback := OnTitlePdf | OnTitleHtml | OnTitlePng | OnPageText.

(** Calls that leave the repository's code, in the order they are made. *)
Inductive Effect :=
| Print (msg : list N)                     (* print(...) *)
| PrintKey (k m : N)                       (* the debug line, two integers in it *)
| ShowHelp
| Quit
| Reload
| OpenInspector
| RunJs (code : list N) (cb : option Callback)
| RunProcess (argv : list (list N)) (input : option (list N))
| ReadClipboard
| SetClipboard (t : list N)
| OpenFile (p : list N)
| Load (u : list N)                        (* web.load_uri(u) / web.load(QUrl(u)) *)
| GoBack
| GoForward
| ZoomStep (up : bool)                     (* zoom := zoom + 0.1 / zoom - 0.1 *)
| ZoomReset                                (* zoom := 1.0 *)
| PrintZoom                                (* the zoom level formatted with one decimal *)
| FindSearch (t : list N) (case_insensitive : bool) (max_matches : N)
| FindSearchNext
| FindSearchPrevious
| FindText (t : list N) (backward case_sensitive : bool)
| Makedirs (p : list N)
| PrintToPdf (dest : list N).

#[global] Instance Callback_eq_dec : EqDecision Callback.
Proof. solve_decision. Defined.

#[global] Instance Effect_eq_dec : EqDecision Effect.
Proof. solve_decision. Defined.

(** What a Python function hands back: [True], [False], or nothing. *)
Inductive PyRet := RTrue | RFalse | RNone.

#[global] Instance PyRet_eq_dec : EqDecision PyRet.
Proof. solve_decision. Defined.

Definition ret_truthy (r : PyRet) : bool :=
  match r with RTrue => true | _ => false end.

(** The result of one run of [on_key]: the value returned, the find term
    slot [find_text[0]] afterwards, and the calls made. *)
Record Outcome := {
  ret : PyRet;
  slot : list N;
  effects : list Effect
}.

Definition handled (ft : str) (effs : list Effect) : Outcome :=
  {| ret := RTrue; slot := ft; effects := effs |}.

Definition before (pre : list Effect) (o : Outcome) : Outcome :=
  {| ret := ret o; slot := slot o; effects := pre ++ effects o |}.

(** The branches of the [if]/[elif] chain of [on_key], in source order;
    both files have the same thirty. *)
Inductive Branch :=
| BHelp | BQuit | BReload | BInspector | BPrint | BSavePdf | BSaveHtml
| BScreenshot | BCopyText | BLoadTmux | BLoadClipboard | BChangeUrl
| BBookmarks | BBackLeft | BForwardRight | BBackH | BForwardL
| BScrollDown | BScrollUp | BPageDown | BPageUp | BBackComma
| BForwardPeriod | BCopyUrl | BZoomIn | BZoomOut | BZoomReset
| BFind | BFindNext | BFindPrevious.

#[global] Instance Branch_eq_dec : EqDecision Branch.
Proof. solve_decision. Defined.

(** "List of (predicate, action) pairs, first match wins". *)
Fixpoint first_match {E : Type} (cases : list (Branch * (E -> bool))) (e : E)
  : option Branch :=
  match cases with
  | [] => None
  | (b, p) :: rest => if p e then Some b else first_match rest e
  end.

(** What [url_text[:50] if url_text else "(empty)"] shows. *)
Definition shown (t : option str) : str :=
  if truthy t then take 50 (default [] t) else lit "(empty)".

(** The bookmarks file: [os.getenv('BOOKMARKS_FILE') or
    os.path.expanduser('~/data/links.txt')]. *)
Definition links_path (w : World) : str :=
  py_or (getenv w "BOOKMARKS_FILE") (expanduser w (lit "~/data/links.txt")).

Definition dmenu_url : list str := [lit "dmenu"; lit "-p"; lit "URL"].
Definition dmenu_find : list str := [lit "dmenu"; lit "-p"; lit "Find"].
Definition dmenu_links : list str :=
  [lit "dmenu"; lit "-i"; lit "-l"; lit "20"; lit "-p"; lit "Open link:"].

(** ** Start-up: what the module-level code of each file does *)

(** Calls that configure the engine and the window, in order. *)
Inductive Setup :=
| HelpText
| SetEnvDefault (name : string) (v : list N)
| NewApplication
| NewDataManager
| MemoryLimit (mb : Z)
| KillThreshold (t : Q)
| StrictThreshold (t : Q)
| ConservativeThreshold (t : Q)
| AttachMemoryPressure
| ContextWithDataManager
| DefaultContext
| DiskCacheDirectory (p : list N)
| CacheDocumentViewer
| NoThirdPartyCookies
| SharedSecondaryProcess
| NewWindow
| WindowSize (w h : Z)
| NewView
| Setting (name : string) (on : bool)
| HardwareAcceleration (policy : string)
| MinimumFontSize (n : Z)
| UserAgent (ua : list N)
| CachePath (p : list N)
| PersistentStoragePath (p : list N)
| NoHttpCache
| ClearHttpCache
| ShowWindow
| FirstLoad (u : list N)
| StartPollTimer (ms : Z)
| MainLoop.

(** How the module-level code ends: [sys.exit(0)] after the help text,
    an uncaught exception ([ValueError], [OverflowError]), or the event
    loop. *)
Inductive Started :=
| Exit0 (calls : list Setup)
| Crash (calls : list Setup)
| Running (calls : list Setup).

Definition calls_of (s : Started) : list Setup :=
  match s with Exit0 c | Crash c | Running c => c end.

(** [w, h = map(int, size.split('x'))]: [None] is the [ValueError] of
    [int] or of unpacking other than two values. *)
Definition parse_size (R : PyRuntime) (size : str) : option (Z * Z) :=
  match py_int R <$> split 120 size with
  | [Some w; Some h] => Some (w, h)
  | _ => None
  end.

(** The values a C [int] parameter takes ([gint] of
    [Gtk.Window.set_default_size], [int] of [QWidget.resize]); the binding
    raises [OverflowError] for a Python integer outside them. *)
Definition c_int (z : Z) : bool :=
  ((- 2 ^ 31 <=? z) && (z <=? 2 ^ 31 - 1))%Z.

(** The values a C [unsigned int] parameter takes ([guint] of
    [MemoryPressureSettings.set_memory_limit]). *)
Definition c_uint (z : Z) : bool :=
  ((0 <=? z) && (z <=? 2 ^ 32 - 1))%Z.

Definition when (c : bool) (calls : list Setup) : list Setup :=
  if c then calls else [].

(** ** The GTK shell: browser.py *)

Module Gtk.

(** Key values and modifier bits of GDK (gdkkeysyms.h, gdktypes.h). *)
Definition KEY_F1 : N := 0xffbe.
Definition KEY_F5 : N := 0xffc2.
Definition KEY_F12 : N := 0xffc9.
Definition KEY_Left : N := 0xff51.
Definition KEY_Right : N := 0xff53.
Definition KEY_comma : N := 0x2c.
Definition KEY_period : N := 0x2e.
Definition KEY_plus : N := 0x2b.
Definition KEY_equal : N := 0x3d.
Definition KEY_minus : N := 0x2d.
Definition KEY_0 : N := 0x30.
Definition KEY_C : N := 0x43.
Definition KEY_G : N := 0x47.
Definition KEY_N : N := 0x4e.
Definition KEY_P : N := 0x50.
Definition KEY_S : N := 0x53.
Definition KEY_U : N := 0x55.
Definition KEY_b : N := 0x62.
Definition KEY_f : N := 0x66.
Definition KEY_g : N := 0x67.
Definition KEY_h : N := 0x68.
Definition KEY_i : N := 0x69.
Definition KEY_j : N := 0x6a.
Definition KEY_k : N := 0x6b.
Definition KEY_l : N := 0x6c.
Definition KEY_n : N := 0x6e.
Definition KEY_p : N := 0x70.
Definition KEY_q : N := 0x71.
Definition KEY_r : N := 0x72.
Definition KEY_s : N := 0x73.
Definition KEY_u : N := 0x75.

Definition SHIFT_MASK : N := 1.
Definition CONTROL_MASK : N := 4.
Definition MOD1_MASK : N := 8.

(** A key-press event: [e.keyval] and [e.state]. *)
Record EventKey := { keyval : N; state : N }.

(** Truthiness of [e.state & mask]. *)
Definition has (s mask : N) : bool := negb (N.land s mask =? 0)%N.

Definition CTRL_OR_SHIFT : N := N.lor CONTROL_MASK SHIFT_MASK.

(** The conditions of browser.py 184-335, top to bottom. *)
Definition dispatch (e : EventKey) : option Branch :=
  let k := keyval e in
  let s := state e in
  if (k =? KEY_F1)%N then Some BHelp
  else if (k =? KEY_q)%N && has s CONTROL_MASK then Some BQuit
  else if (k =? KEY_F5)%N || ((k =? KEY_r)%N && has s CONTROL_MASK) then Some BReload
  else if (k =? KEY_F12)%N then Some BInspector
  else if (k =? KEY_p)%N && has s CONTROL_MASK && negb (has s SHIFT_MASK) then Some BPrint
  else if (k =? KEY_P)%N && has s CTRL_OR_SHIFT then Some BSavePdf
  else if (k =? KEY_s)%N && has s CONTROL_MASK && negb (has s SHIFT_MASK) then Some BSaveHtml
  else if (k =? KEY_S)%N && has s CTRL_OR_SHIFT then Some BScreenshot
  else if (k =? KEY_C)%N && has s CTRL_OR_SHIFT then Some BCopyText
  else if (k =? KEY_g)%N && has s CONTROL_MASK && negb (has s SHIFT_MASK) then Some BLoadTmux
  else if (k =? KEY_G)%N && has s CTRL_OR_SHIFT then Some BLoadClipboard
  else if (k =? KEY_l)%N && has s CONTROL_MASK && negb (has s SHIFT_MASK) then Some BChangeUrl
  else if (k =? KEY_b)%N && has s CONTROL_MASK then Some BBookmarks
  else if (k =? KEY_Left)%N && has s MOD1_MASK then Some BBackLeft
  else if (k =? KEY_Right)%N && has s MOD1_MASK then Some BForwardRight
  else if (k =? KEY_h)%N && has s MOD1_MASK then Some BBackH
  else if (k =? KEY_l)%N && has s MOD1_MASK then Some BForwardL
  else if (k =? KEY_j)%N && has s MOD1_MASK then Some BScrollDown
  else if (k =? KEY_k)%N && has s MOD1_MASK then Some BScrollUp
  else if (k =? KEY_u)%N && has s MOD1_MASK then Some BPageDown
  else if (k =? KEY_i)%N && has s MOD1_MASK then Some BPageUp
  else if (k =? KEY_comma)%N && has s MOD1_MASK then Some BBackComma
  else if (k =? KEY_period)%N && has s MOD1_MASK then Some BForwardPeriod
  else if (k =? KEY_U)%N && has s CTRL_OR_SHIFT then Some BCopyUrl
  else if ((k =? KEY_plus)%N || (k =? KEY_equal)%N) && has s CONTROL_MASK then Some BZoomIn
  else if (k =? KEY_minus)%N && has s CONTROL_MASK then Some BZoomOut
  else if (k =? KEY_0)%N && has s CONTROL_MASK then Some BZoomReset
  else if (k =? KEY_f)%N && has s CONTROL_MASK then Some BFind
  else if (k =? KEY_n)%N && has s CONTROL_MASK && negb (has s SHIFT_MASK) then Some BFindNext
  else if (k =? KEY_N)%N && has s CONTROL_MASK then Some BFindPrevious
  else None.

(** The bodies of the branches. *)
Definition run (w : World) (ft : str) (b : Branch) : Outcome :=
  match b with
  | BHelp => handled ft [ShowHelp]
  | BQuit => handled ft [Print (lit "Quitting..."); Quit]
  | BReload => handled ft [Print (lit "Reloading..."); Reload]
  | BInspector => handled ft [Print (lit "Opening inspector..."); OpenInspector]
  | BPrint => handled ft [Print (lit "Printing..."); RunJs (lit "window.print()") None]
  | BSavePdf =>
      handled ft [Print (lit "Saving PDF...");
                  RunJs (lit "document.title") (Some OnTitlePdf)]
  | BSaveHtml =>
      handled ft [Print (lit "Saving HTML...");
                  RunJs (lit "document.title") (Some OnTitleHtml)]
  | BScreenshot =>
      handled ft [Print (lit "Saving screenshot...");
                  RunJs (lit "document.title") (Some OnTitlePng)]
  | BCopyText =>
      handled ft [Print (lit "Copying page text to tmux and clipboard...");
                  RunJs (lit "document.body.innerText") (Some OnPageText)]
  | BLoadTmux =>
      let url_text := strip (tmux_show_buffer w) in
      handled ft
        (RunProcess [lit "tmux"; lit "show-buffer"] None ::
         if is_valid_url (Some url_text)
         then [Print (lit "Loading from tmux buffer: " ++ url_text); Load url_text]
         else [Print (lit "Tmux buffer is not a valid URL: "
                      ++ shown (Some url_text) ++ lit "...")])
  | BLoadClipboard =>
      let url_text := clipboard_text w in
      handled ft
        (ReadClipboard ::
         if is_valid_url url_text
         then [Print (lit "Loading from clipboard: " ++ default [] url_text);
               Load (default [] url_text)]
         else [Print (lit "Clipboard is not a valid URL: "
                      ++ shown url_text ++ lit "...")])
  | BChangeUrl =>
      let new_url := strip (dmenu w dmenu_url (web_uri w)) in
      handled ft
        (Print (lit "Opening dmenu for URL...") ::
         RunProcess dmenu_url (Some (web_uri w)) ::
         if nonempty new_url
         then [Print (lit "Navigating to: " ++ new_url); Load new_url]
         else [])
  | BBookmarks =>
      match read_file w (links_path w) with
      | None =>
          {| ret := RNone; slot := ft;
             effects := [OpenFile (links_path w);
                         Print (lit "Links file not found: " ++ links_path w)] |}
      | Some links =>
          let selected := strip (dmenu w dmenu_links links) in
          handled ft
            (OpenFile (links_path w) ::
             RunProcess dmenu_links (Some links) ::
             if nonempty selected
             then [Print (lit "Opening: " ++ selected); Load selected]
             else [])
      end
  | BBackLeft | BBackH | BBackComma =>
      handled ft [Print (lit "Going back..."); GoBack]
  | BForwardRight | BForwardL | BForwardPeriod =>
      handled ft [Print (lit "Going forward..."); GoForward]
  | BScrollDown => handled ft [RunJs (lit "window.scrollBy(0, 100)") None]
  | BScrollUp => handled ft [RunJs (lit "window.scrollBy(0, -100)") None]
  | BPageDown => handled ft [RunJs (lit "window.scrollBy(0, window.innerHeight)") None]
  | BPageUp => handled ft [RunJs (lit "window.scrollBy(0, -window.innerHeight)") None]
  | BCopyUrl =>
      let url_text := web_uri w in
      handled ft [RunProcess [lit "tmux"; lit "set-buffer"; url_text] None;
                  SetClipboard url_text;
                  Print (lit "Copied URL to tmux and clipboard: " ++ url_text)]
  | BZoomIn => handled ft [ZoomStep true; PrintZoom]
  | BZoomOut => handled ft [ZoomStep false; PrintZoom]
  | BZoomReset => handled ft [ZoomReset; Print (lit "Zoom: 1.0")]
  | BFind =>
      let search := strip (dmenu w dmenu_find ft) in
      if nonempty search
      then handled search
             [RunProcess dmenu_find (Some ft);
              FindSearch search true 9999;
              Print (lit "Searching: " ++ search)]
      else handled ft [RunProcess dmenu_find (Some ft)]
  | BFindNext => handled ft [FindSearchNext; Print (lit "Find next")]
  | BFindPrevious => handled ft [FindSearchPrevious; Print (lit "Find previous")]
  end.

(** browser.py 181-336: [on_key(w, e)], started with [find_text[0] = ft]. *)
Definition on_key (w : World) (ft : str) (e : EventKey) : Outcome :=
  let debug := if truthy (getenv w "DBROWSER_DEBUG")
               then [PrintKey (keyval e) (state e)] else [] in
  match dispatch e with
  | Some b => before debug (run w ft b)
  | None => {| ret := RFalse; slot := ft; effects := debug |}
  end.

(** The chain as a table: one (branch, predicate) pair per [elif]. *)
Definition cases : list (Branch * (EventKey -> bool)) :=
  let key k := fun e => (keyval e =? k)%N in
  let m mask := fun e => has (state e) mask in
  let both (p q : EventKey -> bool) := fun e => p e && q e in
  let either (p q : EventKey -> bool) := fun e => p e || q e in
  let no (p : EventKey -> bool) := fun e => negb (p e) in
  [ (BHelp, key KEY_F1);
    (BQuit, both (key KEY_q) (m CONTROL_MASK));
    (BReload, either (key KEY_F5) (both (key KEY_r) (m CONTROL_MASK)));
    (BInspector, key KEY_F12);
    (BPrint, both (both (key KEY_p) (m CONTROL_MASK)) (no (m SHIFT_MASK)));
    (BSavePdf, both (key KEY_P) (m CTRL_OR_SHIFT));
    (BSaveHtml, both (both (key KEY_s) (m CONTROL_MASK)) (no (m SHIFT_MASK)));
    (BScreenshot, both (key KEY_S) (m CTRL_OR_SHIFT));
    (BCopyText, both (key KEY_C) (m CTRL_OR_SHIFT));
    (BLoadTmux, both (both (key KEY_g) (m CONTROL_MASK)) (no (m SHIFT_MASK)));
    (BLoadClipboard, both (key KEY_G) (m CTRL_OR_SHIFT));
    (BChangeUrl, both (both (key KEY_l) (m CONTROL_MASK)) (no (m SHIFT_MASK)));
    (BBookmarks, both (key KEY_b) (m CONTROL_MASK));
    (BBackLeft, both (key KEY_Left) (m MOD1_MASK));
    (BForwardRight, both (key KEY_Right) (m MOD1_MASK));
    (BBackH, both (key KEY_h) (m MOD1_MASK));
    (BForwardL, both (key KEY_l) (m MOD1_MASK));
    (BScrollDown, both (key KEY_j) (m MOD1_MASK));
    (BScrollUp, both (key KEY_k) (m MOD1_MASK));
    (BPageDown, both (key KEY_u) (m MOD1_MASK));
    (BPageUp, both (key KEY_i) (m MOD1_MASK));
    (BBackComma, both (key KEY_comma) (m MOD1_MASK));
    (BForwardPeriod, both (key KEY_period) (m MOD1_MASK));
    (BCopyUrl, both (key KEY_U) (m CTRL_OR_SHIFT));
    (BZoomIn, both (either (key KEY_plus) (key KEY_equal)) (m CONTROL_MASK));
    (BZoomOut, both (key KEY_minus) (m CONTROL_MASK));
    (BZoomReset, both (key KEY_0) (m CONTROL_MASK));
    (BFind, both (key KEY_f) (m CONTROL_MASK));
    (BFindNext, both (both (key KEY_n) (m CONTROL_MASK)) (no (m SHIFT_MASK)));
    (BFindPrevious, both (key KEY_N) (m CONTROL_MASK)) ].

(** browser.py 85-98, the [try] block: [except ValueError: pass].
    [MemoryLimit mem_mb] is the call [mps.set_memory_limit(mem_mb)]; the
    calls listed are those made when [mem_mb] is a value [c_uint] accepts.
    For another integer the binding raises [OverflowError], which the
    handler does not catch: that run is not described here, and the
    properties of the memory ceiling below assume the range. *)
Definition memory_pressure (R : PyRuntime) (memory_limit : str) : list Setup :=
  match py_int R memory_limit with
  | Some mem_mb =>
      [MemoryLimit mem_mb; KillThreshold (95 # 100); StrictThreshold (85 # 100);
       ConservativeThreshold (7 # 10); AttachMemoryPressure]
  | None => []
  end.

(** browser.py 85-113: the calls made on [ctx].  With
    [DBROWSER_MEMORY_LIMIT] set [ctx] is a context of its own, built on the
    fresh data manager; otherwise it is the default context.  The view is
    created later by [WebKit2.WebView()], without [ctx]. *)
Definition context (R : PyRuntime) (w : World) : list Setup :=
  let cache_dir := getenv w "DBROWSER_CACHE_DIR" in
  let no_cache := getenv w "DBROWSER_NO_CACHE" in
  let low_mem := getenv w "DBROWSER_LOW_MEM" in
  let memory_limit := getenv w "DBROWSER_MEMORY_LIMIT" in
  (if truthy memory_limit
   then NewDataManager :: memory_pressure R (default [] memory_limit)
        ++ [ContextWithDataManager]
   else DefaultContext
        :: when (truthy cache_dir) [DiskCacheDirectory (expanduser w (default [] cache_dir))])
  ++ when (truthy no_cache || truthy low_mem) [CacheDocumentViewer]
  ++ [NoThirdPartyCookies]
  ++ when (truthy low_mem) [SharedSecondaryProcess].

(** browser.py 119-155: the view and its settings. *)
Definition view_settings (w : World) : list Setup :=
  let no_js := getenv w "DBROWSER_NO_JS" in
  let low_mem := getenv w "DBROWSER_LOW_MEM" in
  let fast := getenv w "DBROWSER_FAST" in
  let no_images := getenv w "DBROWSER_NO_IMAGES" in
  let enable_webgl := getenv w "DBROWSER_WEBGL" in
  let enable_media := getenv w "DBROWSER_MEDIA" in
  let enable_drm := getenv w "DBROWSER_DRM" in
  [NewView;
   Setting "enable_developer_extras" true;
   Setting "enable_mediasource" (truthy enable_media);
   Setting "enable_media_stream" (truthy enable_media);
   Setting "enable_encrypted_media" (truthy enable_drm);
   HardwareAcceleration "ON_DEMAND";
   Setting "enable_webgl" false;
   Setting "enable_plugins" false;
   Setting "enable_smooth_scrolling" false;
   Setting "enable_hyperlink_auditing" false;
   Setting "allow_file_access_from_file_urls" false;
   Setting "allow_universal_access_from_file_urls" false;
   Setting "javascript_can_access_clipboard" false;
   Setting "javascript_can_open_windows_automatically" false]
  ++ when (truthy no_js) [Setting "enable_javascript" false]
  ++ when (truthy low_mem)
       [Setting "enable_page_cache" false;
        Setting "enable_offline_web_application_cache" false;
        Setting "enable_html5_database" false;
        Setting "enable_html5_local_storage" false;
        MinimumFontSize 10]
  ++ when (truthy fast)
       [Setting "enable_dns_prefetching" true; Setting "enable_page_cache" true]
  ++ when (truthy enable_webgl)
       [Setting "enable_webgl" true; HardwareAcceleration "ALWAYS"]
  ++ when (truthy no_images) [Setting "auto_load_images" false]
  ++ [UserAgent (lit "Mozilla/5.0"); ShowWindow].

(** browser.py 53-155 and 371-375, for [sys.argv = argv].  The second
    [Crash] is the [OverflowError] of [win.set_default_size(w, h)]. *)
Definition startup (R : PyRuntime) (w : World) (argv : list str) : Started :=
  match argv with
  | _ :: url :: _ =>
      if bool_decide (url ∈ [lit "-h"; lit "--help"]) then Exit0 [HelpText]
      else
        let pre := context R w ++ [NewWindow] in
        match parse_size R (getenv_default w "DBROWSER_SIZE" (lit "800x600")) with
        | None => Crash pre
        | Some (width, height) =>
            if c_int width && c_int height
            then Running (pre ++ [WindowSize width height] ++ view_settings w
                          ++ [FirstLoad url; ShowWindow; MainLoop])
            else Crash pre
        end
  | _ => Exit0 [HelpText]
  end.

End Gtk.

(** ** The Qt shell: qtbrowser.py *)

Module Qt.

(** [Qt.Key] and [Qt.KeyboardModifier] (qnamespace.h). *)
Definition Key_F1 : N := 0x01000030.
Definition Key_F5 : N := 0x01000034.
Definition Key_F12 : N := 0x0100003b.
Definition Key_Left : N := 0x01000012.
Definition Key_Right : N := 0x01000014.
Definition Key_Comma : N := 0x2c.
Definition Key_Period : N := 0x2e.
Definition Key_Plus : N := 0x2b.
Definition Key_Equal : N := 0x3d.
Definition Key_Minus : N := 0x2d.
Definition Key_0 : N := 0x30.
Definition Key_B : N := 0x42.
Definition Key_C : N := 0x43.
Definition Key_F : N := 0x46.
Definition Key_G : N := 0x47.
Definition Key_H : N := 0x48.
Definition Key_I : N := 0x49.
Definition Key_J : N := 0x4a.
Definition Key_K : N := 0x4b.
Definition Key_L : N := 0x4c.
Definition Key_N : N := 0x4e.
Definition Key_P : N := 0x50.
Definition Key_Q : N := 0x51.
Definition Key_R : N := 0x52.
Definition Key_S : N := 0x53.
Definition Key_U : N := 0x55.

Definition ShiftModifier : N := 0x02000000.
Definition ControlModifier : N := 0x04000000.
Definition AltModifier : N := 0x08000000.

(** A key event: [event.key()] and [event.modifiers()]. *)
Record KeyEvent := { key : N; modifiers : N }.

Definition CtrlShift : N := N.lor ControlModifier ShiftModifier.

(** The conditions of qtbrowser.py 245-434, top to bottom. *)
Definition dispatch (e : KeyEvent) : option Branch :=
  let k := key e in
  let m := modifiers e in
  if (k =? Key_F1)%N then Some BHelp
  else if (k =? Key_Q)%N && (m =? ControlModifier)%N then Some BQuit
  else if (k =? Key_F5)%N || ((k =? Key_R)%N && (m =? ControlModifier)%N) then Some BReload
  else if (k =? Key_F12)%N then Some BInspector
  else if (k =? Key_P)%N && (m =? ControlModifier)%N then Some BPrint
  else if (k =? Key_P)%N && (m =? CtrlShift)%N then Some BSavePdf
  else if (k =? Key_S)%N && (m =? ControlModifier)%N then Some BSaveHtml
  else if (k =? Key_S)%N && (m =? CtrlShift)%N then Some BScreenshot
  else if (k =? Key_C)%N && (m =? CtrlShift)%N then Some BCopyText
  else if (k =? Key_G)%N && (m =? ControlModifier)%N then Some BLoadTmux
  else if (k =? Key_G)%N && (m =? CtrlShift)%N then Some BLoadClipboard
  else if (k =? Key_L)%N && (m =? ControlModifier)%N then Some BChangeUrl
  else if (k =? Key_B)%N && (m =? ControlModifier)%N then Some BBookmarks
  else if (k =? Key_Left)%N && (m =? AltModifier)%N then Some BBackLeft
  else if (k =? Key_Right)%N && (m =? AltModifier)%N then Some BForwardRight
  else if (k =? Key_H)%N && (m =? AltModifier)%N then Some BBackH
  else if (k =? Key_L)%N && (m =? AltModifier)%N then Some BForwardL
  else if (k =? Key_J)%N && (m =? AltModifier)%N then Some BScrollDown
  else if (k =? Key_K)%N && (m =? AltModifier)%N then Some BScrollUp
  else if (k =? Key_U)%N && (m =? AltModifier)%N then Some BPageDown
  else if (k =? Key_I)%N && (m =? AltModifier)%N then Some BPageUp
  else if (k =? Key_Comma)%N && (m =? AltModifier)%N then Some BBackComma
  else if (k =? Key_Period)%N && (m =? AltModifier)%N then Some BForwardPeriod
  else if (k =? Key_U)%N && (m =? CtrlShift)%N then Some BCopyUrl
  else if ((k =? Key_Plus)%N || (k =? Key_Equal)%N) && (m =? ControlModifier)%N then Some BZoomIn
  else if (k =? Key_Minus)%N && (m =? ControlModifier)%N then Some BZoomOut
  else if (k =? Key_0)%N && (m =? ControlModifier)%N then Some BZoomReset
  else if (k =? Key_F)%N && (m =? ControlModifier)%N then Some BFind
  else if (k =? Key_N)%N && (m =? ControlModifier)%N then Some BFindNext
  else if (k =? Key_N)%N && (m =? CtrlShift)%N then Some BFindPrevious
  else None.

(** [QApplication.clipboard().text()]: empty when there is no text. *)
Definition get_clipboard_text (w : World) : str := default [] (clipboard_text w).

(** qtbrowser.py 162-164. *)
Definition copy_to_tmux_and_clipboard (text : str) : list Effect :=
  [RunProcess [lit "tmux"; lit "set-buffer"; text] None; SetClipboard text].

(** The bodies of the branches. *)
Definition run (R : PyRuntime) (w : World) (ft : str) (b : Branch) : Outcome :=
  match b with
  | BHelp => handled ft [ShowHelp]
  | BQuit => handled ft [Print (lit "Quitting..."); Quit]
  | BReload => handled ft [Print (lit "Reloading..."); Reload]
  | BInspector => handled ft [Print (lit "Opening inspector..."); OpenInspector]
  | BPrint => handled ft [Print (lit "Printing..."); RunJs (lit "window.print()") None]
  | BSavePdf =>
      let dest := get_save_path R w (py_or (Some (web_title w)) (lit "page")) (lit "pdf") in
      handled ft [Makedirs (download_dir w);
                  Print (lit "Saving PDF to " ++ dest ++ lit "...");
                  PrintToPdf dest]
  | BSaveHtml => handled ft [RunJs (lit "document.title") (Some OnTitleHtml)]
  | BScreenshot => handled ft [RunJs (lit "document.title") (Some OnTitlePng)]
  | BCopyText =>
      handled ft [Print (lit "Copying page text to tmux and clipboard...");
                  RunJs (lit "document.body.innerText") (Some OnPageText)]
  | BLoadTmux =>
      let url_text := strip (tmux_show_buffer w) in
      handled ft
        (RunProcess [lit "tmux"; lit "show-buffer"] None ::
         if is_valid_url (Some url_text)
         then [Print (lit "Loading from tmux buffer: " ++ url_text); Load url_text]
         else [Print (lit "Tmux buffer is not a valid URL: "
                      ++ shown (Some url_text) ++ lit "...")])
  | BLoadClipboard =>
      let url_text := get_clipboard_text w in
      handled ft
        (ReadClipboard ::
         if is_valid_url (Some url_text)
         then [Print (lit "Loading from clipboard: " ++ url_text); Load url_text]
         else [Print (lit "Clipboard is not a valid URL: "
                      ++ shown (Some url_text) ++ lit "...")])
  | BChangeUrl =>
      let current_url_disp := web_uri w in
      let new_url := strip (dmenu w dmenu_url current_url_disp) in
      handled ft
        (Print (lit "Opening dmenu for URL...") ::
         RunProcess dmenu_url (Some current_url_disp) ::
         if nonempty new_url
         then [Print (lit "Navigating to: " ++ new_url); Load new_url]
         else [])
  | BBookmarks =>
      match read_file w (links_path w) with
      | None =>
          {| ret := RNone; slot := ft;
             effects := [OpenFile (links_path w);
                         Print (lit "Links file not found: " ++ links_path w)] |}
      | Some links =>
          let selected := strip (dmenu w dmenu_links links) in
          handled ft
            (OpenFile (links_path w) ::
             RunProcess dmenu_links (Some links) ::
             if nonempty selected
             then [Print (lit "Opening: " ++ selected); Load selected]
             else [])
      end
  | BBackLeft | BBackH | BBackComma =>
      handled ft [Print (lit "Going back..."); GoBack]
  | BForwardRight | BForwardL | BForwardPeriod =>
      handled ft [Print (lit "Going forward..."); GoForward]
  | BScrollDown => handled ft [RunJs (lit "window.scrollBy(0, 100)") None]
  | BScrollUp => handled ft [RunJs (lit "window.scrollBy(0, -100)") None]
  | BPageDown => handled ft [RunJs (lit "window.scrollBy(0, window.innerHeight)") None]
  | BPageUp => handled ft [RunJs (lit "window.scrollBy(0, -window.innerHeight)") None]
  | BCopyUrl =>
      let url_text := web_uri w in
      handled ft (copy_to_tmux_and_clipboard url_text
                  ++ [Print (lit "Copied URL to tmux and clipboard: " ++ url_text)])
  | BZoomIn => handled ft [ZoomStep true; PrintZoom]
  | BZoomOut => handled ft [ZoomStep false; PrintZoom]
  | BZoomReset => handled ft [ZoomReset; Print (lit "Zoom: 1.0")]
  | BFind =>
      let search := strip (dmenu w dmenu_find ft) in
      if nonempty search
      then handled search
             [RunProcess dmenu_find (Some ft);
              FindText search false true;
              Print (lit "Searching: " ++ search)]
      else handled ft [RunProcess dmenu_find (Some ft)]
  | BFindNext =>
      if nonempty ft
      then handled ft [FindText ft false true; Print (lit "Find next")]
      else handled ft []
  | BFindPrevious =>
      if nonempty ft
      then handled ft [FindText ft true true; Print (lit "Find previous")]
      else handled ft []
  end.

(** qtbrowser.py 237-435: [on_key(event)], started with [find_text[0] = ft]. *)
Definition on_key (R : PyRuntime) (w : World) (ft : str) (e : KeyEvent) : Outcome :=
  let debug := if truthy (getenv w "DBROWSER_DEBUG")
               then [PrintKey (key e) (modifiers e)] else [] in
  match dispatch e with
  | Some b => before debug (run R w ft b)
  | None => {| ret := RFalse; slot := ft; effects := debug |}
  end.

(** qtbrowser.py 438-443: [KeyFilter.eventFilter]; [key_press] tells
    whether [event.type()] is [KeyPress]. *)
Definition eventFilter (R : PyRuntime) (w : World) (ft : str)
    (key_press : bool) (e : KeyEvent) : bool * Outcome :=
  if key_press then
    let o := on_key R w ft e in (ret_truthy (ret o), o)
  else (false, {| ret := RNone; slot := ft; effects := [] |}).

(** The chain as a table: one (branch, predicate) pair per [elif]. *)
Definition cases : list (Branch * (KeyEvent -> bool)) :=
  let on k m := fun e => (key e =? k)%N && (modifiers e =? m)%N in
  let key_is k := fun e => (key e =? k)%N in
  [ (BHelp, key_is Key_F1);
    (BQuit, on Key_Q ControlModifier);
    (BReload, fun e => key_is Key_F5 e || on Key_R ControlModifier e);
    (BInspector, key_is Key_F12);
    (BPrint, on Key_P ControlModifier);
    (BSavePdf, on Key_P CtrlShift);
    (BSaveHtml, on Key_S ControlModifier);
    (BScreenshot, on Key_S CtrlShift);
    (BCopyText, on Key_C CtrlShift);
    (BLoadTmux, on Key_G ControlModifier);
    (BLoadClipboard, on Key_G CtrlShift);
    (BChangeUrl, on Key_L ControlModifier);
    (BBookmarks, on Key_B ControlModifier);
    (BBackLeft, on Key_Left AltModifier);
    (BForwardRight, on Key_Right AltModifier);
    (BBackH, on Key_H AltModifier);
    (BForwardL, on Key_L AltModifier);
    (BScrollDown, on Key_J AltModifier);
    (BScrollUp, on Key_K AltModifier);
    (BPageDown, on Key_U AltModifier);
    (BPageUp, on Key_I AltModifier);
    (BBackComma, on Key_Comma AltModifier);
    (BForwardPeriod, on Key_Period AltModifier);
    (BCopyUrl, on Key_U CtrlShift);
    (BZoomIn, fun e => (key_is Key_Plus e || key_is Key_Equal e)
                       && (modifiers e =? ControlModifier)%N);
    (BZoomOut, on Key_Minus ControlModifier);
    (BZoomReset, on Key_0 ControlModifier);
    (BFind, on Key_F ControlModifier);
    (BFindNext, on Key_N ControlModifier);
    (BFindPrevious, on Key_N CtrlShift) ].

(** *** Deferred first navigation (qtbrowser.py 93-102, 201-218) *)

(** [_pending_url[0]], [_has_loaded[0]] and whether [poll_timer] runs. *)
Record Poll := {
  pending_url : option (list N);
  has_loaded : bool;
  timer_active : bool
}.

(** After line 218: nothing pending, nothing loaded, timer started. *)
Definition poll_init : Poll :=
  {| pending_url := None; has_loaded := false; timer_active := true |}.

(** [BrowserView.showEvent] for a view built with [start_url]. *)
Definition showEvent (start_url : str) (p : Poll) : Poll :=
  if nonempty start_url
  then {| pending_url := Some start_url;
          has_loaded := has_loaded p; timer_active := timer_active p |}
  else p.

(** [try_load_url]; [is_loading] is what [page.isLoading()] answers
    after the call of [web.load]. *)
Definition try_load_url (is_loading : bool) (p : Poll) : Poll * list Effect :=
  if truthy (pending_url p) && negb (has_loaded p) then
    let eff := [Load (default [] (pending_url p))] in
    if is_loading
    then ({| pending_url := None; has_loaded := true; timer_active := false |}, eff)
    else (p, eff)
  else (p, []).

(** What the event loop delivers: a show event of the view, or a
    timeout of the poll timer (only while the timer runs). *)
Inductive PollEvent := Shown | Timeout (is_loading : bool).

Definition poll_step (start_url : str) (p : Poll) (ev : PollEvent)
  : Poll * list Effect :=
  match ev with
  | Shown => (showEvent start_url p, [])
  | Timeout l => if timer_active p then try_load_url l p else (p, [])
  end.

Fixpoint poll_run (start_url : str) (p : Poll) (evs : list PollEvent)
  : Poll * list Effect :=
  match evs with
  | [] => (p, [])
  | ev :: rest =>
      let '(p1, e1) := poll_step start_url p ev in
      let '(p2, e2) := poll_run start_url p1 rest in
      (p2, e1 ++ e2)
  end.

(** qtbrowser.py 108-115: the profile. *)
Definition profile (w : World) : list Setup :=
  let cache_dir := getenv w "DBROWSER_CACHE_DIR" in
  let no_cache := getenv w "DBROWSER_NO_CACHE" in
  let low_mem := getenv w "DBROWSER_LOW_MEM" in
  when (truthy cache_dir)
    [CachePath (expanduser w (default [] cache_dir));
     PersistentStoragePath (expanduser w (default [] cache_dir))]
  ++ when (truthy no_cache || truthy low_mem) [NoHttpCache; ClearHttpCache].

(** qtbrowser.py 122-140: the settings. *)
Definition page_settings (w : World) : list Setup :=
  let no_js := getenv w "DBROWSER_NO_JS" in
  let low_mem := getenv w "DBROWSER_LOW_MEM" in
  let no_images := getenv w "DBROWSER_NO_IMAGES" in
  let enable_webgl := getenv w "DBROWSER_WEBGL" in
  [Setting "PluginsEnabled" true;
   Setting "JavascriptEnabled" (negb (truthy no_js));
   Setting "AutoLoadIconsForPage" true;
   Setting "AllowRunningInsecureContent" false;
   Setting "AllowGeolocationOnInsecureOrigins" false;
   Setting "LocalContentCanAccessRemoteUrls" false;
   Setting "LocalContentCanAccessFileUrls" false]
  ++ when (truthy no_images) [Setting "AutoLoadImages" false]
  ++ when (truthy enable_webgl) [Setting "WebGLEnabled" true]
  ++ when (truthy low_mem) [Setting "AutoLoadImages" (negb (truthy no_images))]
  ++ [UserAgent (lit "Mozilla/5.0")].

(** qtbrowser.py 64-140, 216-218 and 449-452, for [sys.argv = argv].
    [memory_limit] is read on line 84 and not used again.  The second
    [Crash] is the [OverflowError] of [win.resize(w, h)]. *)
Definition startup (R : PyRuntime) (w : World) (argv : list str) : Started :=
  match argv with
  | _ :: url :: _ =>
      if bool_decide (url ∈ [lit "-h"; lit "--help"]) then Exit0 [HelpText]
      else
        let memory_limit := getenv w "DBROWSER_MEMORY_LIMIT" in
        let pre :=
          [SetEnvDefault "QT_QUICK_BACKEND" (lit "software");
           SetEnvDefault "QTWEBENGINE_DISABLE_GPU" (lit "1");
           SetEnvDefault "QTWEBENGINE_CHROMIUM_FLAGS"
             (lit "--disable-gpu --disable-software-rasterizer");
           NewApplication] in
        match parse_size R (getenv_default w "DBROWSER_SIZE" (lit "800x600")) with
        | None => Crash pre
        | Some (width, height) =>
            if c_int width && c_int height
            then Running (pre ++ [NewView] ++ profile w
                          ++ [NewWindow; WindowSize width height]
                          ++ page_settings w
                          ++ [StartPollTimer 500; ShowWindow; MainLoop])
            else Crash (pre ++ [NewView] ++ profile w ++ [NewWindow])
        end
  | _ => Exit0 [HelpText]
  end.

End Qt.

(** ** Both shells, side by side *)

(** A key press delivered to [on_key] of one of the two shells. *)
Inductive Press :=
| GtkPress (e : Gtk.EventKey)
| QtPress (e : Qt.KeyEvent).

Definition branch_of (p : Press) : option Branch :=
  match p with
  | GtkPress e => Gtk.dispatch e
  | QtPress e => Qt.dispatch e
  end.

Definition on_key (R : PyRuntime) (w : World) (ft : str) (p : Press) : Outcome :=
  match p with
  | GtkPress e => Gtk.on_key w ft e
  | QtPress e => Qt.on_key R w ft e
  end.

Definition run_branch (R : PyRuntime) (w : World) (ft : str) (p : Press) (b : Branch)
  : Outcome :=
  match p with
  | GtkPress _ => Gtk.run w ft b
  | QtPress _ => Qt.run R w ft b
  end.

(** The line printed first when DBROWSER_DEBUG is set. *)
Definition debug_line (w : World) (p : Press) : list Effect :=
  if truthy (getenv w "DBROWSER_DEBUG") then
    match p with
    | GtkPress e => [PrintKey (Gtk.keyval e) (Gtk.state e)]
    | QtPress e => [PrintKey (Qt.key e) (Qt.modifiers e)]
    end
  else [].

(** The URLs handed to the engine's load operation, in order. *)
Definition navigations (effs : list Effect) : list str :=
  omap (fun x => match x with Load u => Some u | _ => None end) effs.

(** The helper processes started, in order. *)
Definition processes (effs : list Effect) : list (list str) :=
  omap (fun x => match x with RunProcess argv _ => Some argv | _ => None end) effs.

(** The lines printed, in order. *)
Definition printed (effs : list Effect) : list str :=
  omap (fun x => match x with Print m => Some m | _ => None end) effs.

(** The text fetched by the two load-from-buffer branches. *)
Definition fetched (w : World) (p : Press) (b : Branch) : option str :=
  match b, p with
  | BLoadClipboard, GtkPress _ => clipboard_text w
  | BLoadClipboard, QtPress _ => Some (Qt.get_clipboard_text w)
  | _, _ => Some (strip (tmux_show_buffer w))
  end.

(** "Non-empty and starts with http://, https://, ftp:// or file://". *)
Definition url_shaped (t : str) : Prop :=
  t <> [] /\ exists scheme rest,
    scheme ∈ [lit "http://"; lit "https://"; lit "ftp://"; lit "file://"]
    /\ t = scheme ++ rest.

(** [find_text = ['']] (browser.py 165, qtbrowser.py 142). *)
Definition find_text_init : str := [].

(** The environment with one variable set. *)
Definition setenv (w : World) (name : string) (v : str) : World :=
  {| environ := <[name := v]> (environ w);
     expanduser := expanduser w;
     random53 := random53 w;
     tmux_show_buffer := tmux_show_buffer w;
     clipboard_text := clipboard_text w;
     dmenu := dmenu w;
     read_file := read_file w;
     web_uri := web_uri w;
     web_title := web_title w |}.

(** *** Key combinations as the user presses them

    GDK reports the key value of the symbol typed, hence the capital
    letter while Shift is held, and one bit per modifier; Qt reports the
    key code of the capital letter whatever the modifiers, and one flag
    per modifier. *)
Inductive Sym := SymF1 | SymF5 | SymF12 | SymLeft | SymRight | SymChar (c : N).

Record Combo := { sym : Sym; ctrl : bool; shift : bool; alt : bool }.

Definition upper (c : N) : N := if in_range 97 122 c then (c - 32)%N else c.

Definition bit (b : bool) (mask : N) : N := if b then mask else 0%N.

Definition gtk_event (c : Combo) : Gtk.EventKey :=
  {| Gtk.keyval :=
       match sym c with
       | SymF1 => Gtk.KEY_F1 | SymF5 => Gtk.KEY_F5 | SymF12 => Gtk.KEY_F12
       | SymLeft => Gtk.KEY_Left | SymRight => Gtk.KEY_Right
       | SymChar ch => if shift c then upper ch else ch
       end;
     Gtk.state := N.lor (bit (shift c) Gtk.SHIFT_MASK)
                    (N.lor (bit (ctrl c) Gtk.CONTROL_MASK) (bit (alt c) Gtk.MOD1_MASK)) |}.

Definition qt_event (c : Combo) : Qt.KeyEvent :=
  {| Qt.key :=
       match sym c with
       | SymF1 => Qt.Key_F1 | SymF5 => Qt.Key_F5 | SymF12 => Qt.Key_F12
       | SymLeft => Qt.Key_Left | SymRight => Qt.Key_Right
       | SymChar ch => upper ch
       end;
     Qt.modifiers := N.lor (bit (shift c) Qt.ShiftModifier)
                       (N.lor (bit (ctrl c) Qt.ControlModifier) (bit (alt c) Qt.AltModifier)) |}.


Definition Ctrl (ch : string) : Combo :=
  {| sym := SymChar (hd 0%N (lit ch)); ctrl := true; shift := false; alt := false |}.
Definition CtrlShift (ch : string) : Combo :=
  {| sym := SymChar (hd 0%N (lit ch)); ctrl := true; shift := true; alt := false |}.


(** A slot is read by a computation when its result depends on it. *)
Definition depends_on_slot {A : Type} (f : str -> A) : Prop :=
  exists a b, f a <> f b.

(** The memory ceilings handed to the engine during start-up. *)
Definition memory_limits (calls : list Setup) : list Z :=
  omap (fun c => match c with MemoryLimit mb => Some mb | _ => None end) calls.

(** The value of a string of ASCII digits, read left to right. *)
Definition decimal_value (ds : str) : Z :=
  fold_left (fun acc c => (10 * acc + Z.of_N (c - 48))%Z) ds 0%Z.

(** ** Sample inputs *)

(** A runtime that knows ASCII only, with CPython's default digit limit. *)
Definition ascii_runtime : PyRuntime :=
  {| uni_isalnum := fun _ => false;
     uni_decimal := fun _ => None;
     int_max_str_digits := 4300 |}.

(** A session: no variable set, home directory /home/u, no bookmarks
    file, a shell command in the tmux buffer, a URL on the clipboard,
    and a user who accepts whatever dmenu offers. *)
Definition sample_world : World :=
  {| environ := ∅;
     expanduser := fun p => match p with
                            | 126%N :: r => lit "/home/u" ++ r
                            | _ => p
                            end;
     random53 := fun i => (N.of_nat i * 1234567891234567)%N;
     tmux_show_buffer := lit "ls -la ";
     clipboard_text := Some (lit "https://example.org/");
     dmenu := fun _ input => input;
     read_file := fun _ => None;
     web_uri := lit "about:blank";
     web_title := lit "../../etc/passwd" |}.

(** The same session with a user who types [reply] into every dmenu. *)
Definition typing (reply : str) (w : World) : World :=
  {| environ := environ w;
     expanduser := expanduser w;
     random53 := random53 w;
     tmux_show_buffer := tmux_show_buffer w;
     clipboard_text := clipboard_text w;
     dmenu := fun _ _ => reply;
     read_file := read_file w;
     web_uri := web_uri w;
     web_title := web_title w |}.

Definition gtk_press (c : Combo) : Press := GtkPress (gtk_event c).
Definition qt_press (c : Combo) : Press := QtPress (qt_event c).


(** ** More of both files: tables, settings, downloads, callbacks *)

(** The branches of a table whose predicate holds for an event. *)
Definition matching {E : Type} (cases : list (Branch * (E -> bool))) (e : E)
  : list Branch :=
  fst <$> List.filter (fun c => c.2 e) cases.

(** The value a boolean setting is left with: the last call setting it. *)
Definition final_setting (name : string) (calls : list Setup) : option bool :=
  last (omap (fun c => match c with
                       | Setting n v => if String.eqb n name then Some v else None
                       | _ => None
                       end) calls).

(** *** [urllib.parse.quote(s)] with its default [safe='/']

    The string is encoded as UTF-8 ([None] is the [UnicodeEncodeError]
    of a surrogate; values past U+10FFFF are no code points), then every
    byte outside letters, digits, [_.-~] and [/] becomes [%XX]. *)
Definition utf8_encode_char (c : N) : option (list N) :=
  if (c <? 0x80)%N then Some [c]
  else if (c <? 0x800)%N then Some [0xC0 + c / 64; 0x80 + c mod 64]%N
  else if in_range 0xD800 0xDFFF c then None
  else if (c <? 0x10000)%N then
    Some [0xE0 + c / 4096; 0x80 + (c / 64) mod 64; 0x80 + c mod 64]%N
  else if (c <? 0x110000)%N then
    Some [0xF0 + c / 262144; 0x80 + (c / 4096) mod 64;
          0x80 + (c / 64) mod 64; 0x80 + c mod 64]%N
  else None.

Definition utf8_encode (s : str) : option (list N) :=
  mjoin <$> mapM utf8_encode_char s.

Definition always_safe (b : N) : bool :=
  ascii_isalnum b || bool_decide (b ∈ lit "_.-~").

Definition hex_digit (n : N) : N := if (n <? 10)%N then (48 + n)%N else (55 + n)%N.

Definition quoter (b : N) : str :=
  if always_safe b || (b =? 47)%N then [b]
  else [37%N; hex_digit (b / 16); hex_digit (b mod 16)].

Definition quote (s : str) : option str :=
  bs ← utf8_encode s; Some (mjoin (quoter <$> bs)).

(** *** [os.path.join(a, b)] of posixpath *)
Definition ends_with_sep (a : str) : bool :=
  match last a with Some c => (c =? 47)%N | None => false end.

Definition path_join (a b : str) : str :=
  if startswith b (lit "/") then b
  else if negb (nonempty a) || ends_with_sep a then a ++ b
  else a ++ lit "/" ++ b.

(** *** Download handlers *)

Inductive DownloadCall :=
| DMakedirs (p : list N)
| DSetDestination (uri : list N)           (* d.set_destination(uri) *)
| DSetPath (p : list N)                    (* item.setPath(p) *)
| DConnect (signal : string)
| DAccept
| DPrint (msg : list N).

Module GtkLater.

(** browser.py 339-346: [on_decide_destination(d, suggested)]; the
    second component is the value returned, [None] when a call raises:
    [os.makedirs] for the empty path ([FileNotFoundError]), or [quote]. *)
Definition on_decide_destination (w : World) (suggested : option str)
  : list DownloadCall * option bool :=
  let path := download_dir w in
  if nonempty path then
    let dest := path ++ lit "/" ++ py_or suggested (lit "download") in
    match quote dest with
    | None => ([DMakedirs path], None)
    | Some q =>
        ([DMakedirs path;
          DSetDestination (lit "file://" ++ q);
          DPrint (lit "Saving file to " ++ dest ++ lit " ...");
          DConnect "finished"], Some true)
    end
  else ([DMakedirs path], None).

End GtkLater.

Module QtLater.

(** qtbrowser.py 221-232: [handle_download(item)] for an item whose
    [suggestedFileName()] is [suggested].  [os.makedirs] raises
    [FileNotFoundError] for the empty path: the handler stops there. *)
Definition handle_download (w : World) (suggested : str) : list DownloadCall :=
  let path := download_dir w in
  if nonempty path then
    let suggested := py_or (Some suggested) (lit "download") in
    let dest := path_join path suggested in
    [DMakedirs path; DSetPath dest; DConnect "stateChanged"; DAccept;
     DPrint (lit "Downloading to " ++ dest ++ lit " ...")]
  else [DMakedirs path].

End QtLater.

(** *** Completion callbacks *)

(** Calls made by a completion callback: those a key handler can make
    as well, and the saving calls. *)
Inductive Later :=
| Call (e : Effect)
| PrintToFile (dest : list N)     (* print operation, output-uri 'file://' + dest, format pdf *)
| SaveMhtml (dest : list N)       (* web.save(MHTML, ...), to be written to dest when finished *)
| Snapshot (dest : list N)        (* web.get_snapshot(...), to be written to dest when finished *)
| SavePage (dest : list N)        (* page.save(dest, CompleteHtmlSaveFormat) *)
| SavePixmap (dest : list N)      (* web.grab().save(dest) *)
| PrintCopied (n : nat).          (* 'Copied {n} chars to tmux and clipboard' *)


(** The texts a callback puts on the clipboard. *)
Definition copied (calls : list Later) : list str :=
  omap (fun c => match c with Call (SetClipboard t) => Some t | _ => None end) calls.

Module GtkCallbacks.




(** browser.py 241-245: [copy_text] of Ctrl+Shift+C. *)
Definition copy_text (text : str) : list Later :=
  [Call (RunProcess [lit "tmux"; lit "set-buffer"; text] None);
   Call (SetClipboard text); PrintCopied (length text)].

End GtkCallbacks.

Module QtCallbacks.



(** qtbrowser.py 294-297: [copy_text(text)]. *)
Definition copy_text (text : option str) : list Later :=
  if truthy text
  then (Call <$> Qt.copy_to_tmux_and_clipboard (default [] text))
       ++ [PrintCopied (length (default [] text))]
  else [].

End QtCallbacks.


(** The terms handed to the engine's find operation, in order. *)
Definition searched (effs : list Effect) : list str :=
  omap (fun x => match x with
                 | FindSearch t _ _ | FindText t _ _ => Some t
                 | _ => None
                 end) effs.

(** The same session with [text] in the tmux buffer. *)
Definition with_tmux_buffer (text : str) (w : World) : World :=
  {| environ := environ w;
     expanduser := expanduser w;
     random53 := random53 w;
     tmux_show_buffer := text;
     clipboard_text := clipboard_text w;
     dmenu := dmenu w;
     read_file := read_file w;
     web_uri := web_uri w;
     web_title := web_title w |}.

(** The same session with [text] on the clipboard. *)
Definition with_clipboard (text : option str) (w : World) : World :=
  {| environ := environ w;
     expanduser := expanduser w;
     random53 := random53 w;
     tmux_show_buffer := tmux_show_buffer w;
     clipboard_text := text;
     dmenu := dmenu w;
     read_file := read_file w;
     web_uri := web_uri w;
     web_title := web_title w |}.

(** The same session with a bookmarks file holding [links]. *)
Definition with_bookmarks (links : str) (w : World) : World :=
  {| environ := environ w;
     expanduser := expanduser w;
     random53 := random53 w;
     tmux_show_buffer := tmux_show_buffer w;
     clipboard_text := clipboard_text w;
     dmenu := dmenu w;
     read_file := fun _ => Some links;
     web_uri := web_uri w;
     web_title := web_title w |}.

(** The disk cache directories handed to the web context. *)
Definition disk_cache_dirs (calls : list Setup) : list str :=
  omap (fun c => match c with DiskCacheDirectory p => Some p | _ => None end) calls.

(** The window sizes applied. *)
Definition window_sizes (calls : list Setup) : list (Z * Z) :=
  omap (fun c => match c with WindowSize w h => Some (w, h) | _ => None end) calls.

(** Where a download handler tells the engine to put the file. *)
Definition download_targets (calls : list DownloadCall) : list str :=
  omap (fun c => match c with
                 | DSetDestination p | DSetPath p => Some p
                 | _ => None
                 end) calls.

(** The characters [quote] lets through or produces: letters, digits,
    [_.-~], '/' and '%'. *)
Definition uri_char (c : N) : Prop :=
  always_safe c = true \/ c = 47%N \/ c = 37%N.

(** * Properties *)

(** ** Strings *)

Lemma startswith_spec (s p : list N) :
  startswith s p = true <-> exists r, s = p ++ r.
Proof.
  revert s; induction p as [|a p IH]; intros s; simpl.
  - split; [intros _; by exists s | done].
  - destruct s as [|b s].
    + split; [done | intros [r Hr]; discriminate Hr].
    + rewrite andb_true_iff, N.eqb_eq, IH. split.
      * intros [-> [r ->]]. by exists r.
      * intros [r Hr]. injection Hr as -> ->. eauto.
Qed.

Lemma nonempty_true (s : list N) : nonempty s = true <-> s <> [].
Proof. destruct s; simpl; split; congruence. Qed.

Lemma nonempty_false (s : list N) : nonempty s = false <-> s = [].
Proof. destruct s; simpl; split; congruence. Qed.

Lemma is_valid_url_spec (text : option (list N)) :
  is_valid_url text = true <-> exists t, text = Some t /\ url_shaped t.
Proof.
  unfold is_valid_url, url_shaped, startswith_any.
  destruct text as [t|].
  2: { split; [done | intros (t & Ht & _); discriminate Ht]. }
  change (default [] (Some t)) with t. cbn [truthy].
  destruct (nonempty t) eqn:Hne; cbn [negb].
  - apply nonempty_true in Hne.
    rewrite existsb_exists. split.
    + intros (p & Hin & Hp). apply startswith_spec in Hp as [r ->].
      exists (p ++ r). split; [done|]. split; [done|].
      exists p, r. split; [|done]. by apply list_elem_of_In.
    + intros (t' & [= <-] & _ & p & r & Hin & ->).
      exists p. split; [by apply list_elem_of_In|].
      apply startswith_spec. by exists r.
  - apply nonempty_false in Hne. split; [done|].
    intros (t' & [= <-] & Hn & _). done.
Qed.

Lemma is_valid_url_false (text : option (list N)) :
  is_valid_url text = false <-> ~ exists t, text = Some t /\ url_shaped t.
Proof.
  rewrite <- is_valid_url_spec. destruct (is_valid_url text); split; congruence.
Qed.

(** ** Dispatch: the chain is its table, read top to bottom *)

Lemma gtk_dispatch_first_match (e : Gtk.EventKey) :
  Gtk.dispatch e = first_match Gtk.cases e.
Proof. reflexivity. Qed.

Lemma qt_dispatch_first_match (e : Qt.KeyEvent) :
  Qt.dispatch e = first_match Qt.cases e.
Proof. reflexivity. Qed.

(** The first matching pair of a table is in the table, its predicate
    holds, and no pair before it matches. *)
Lemma first_match_Some {E : Type} (cases : list (Branch * (E -> bool))) e b :
  first_match cases e = Some b ->
  exists before_ p after,
    cases = before_ ++ (b, p) :: after /\ p e = true
    /\ Forall (fun c => c.2 e = false) before_.
Proof.
  induction cases as [|[b' p'] rest IH]; simpl; [done|].
  destruct (p' e) eqn:Hp.
  - intros [= ->]. exists [], p', rest. by repeat split.
  - intros H. destruct (IH H) as (bf & p & af & -> & Hpe & Hall).
    exists ((b', p') :: bf), p, af. repeat split; [done|]. by constructor.
Qed.

Lemma first_match_None {E : Type} (cases : list (Branch * (E -> bool))) e :
  first_match cases e = None <-> Forall (fun c => c.2 e = false) cases.
Proof.
  induction cases as [|[b' p'] rest IH]; simpl.
  - split; [constructor | done].
  - destruct (p' e) eqn:Hp.
    + split; [done | intros H; inversion H; simpl in *; congruence].
    + rewrite IH. split; [by constructor | by inversion 1].
Qed.

(** The handler runs the branch picked by the dispatch and nothing else. *)
Lemma on_key_runs_branch R w ft p b :
  branch_of p = Some b ->
  on_key R w ft p = before (debug_line w p) (run_branch R w ft p b).
Proof.
  destruct p as [e|e]; simpl; unfold Gtk.on_key, Qt.on_key, debug_line;
    intros ->; reflexivity.
Qed.

Lemma on_key_unmatched R w ft p :
  branch_of p = None ->
  on_key R w ft p = {| ret := RFalse; slot := ft; effects := debug_line w p |}.
Proof.
  destruct p as [e|e]; simpl; unfold Gtk.on_key, Qt.on_key, debug_line;
    intros ->; reflexivity.
Qed.

(** The value returned by a branch: nothing when the bookmarks file is
    missing, [True] otherwise. *)
Lemma run_branch_ret R w ft p b :
  ret (run_branch R w ft p b) =
  if bool_decide (b = BBookmarks /\ read_file w (links_path w) = None)
  then RNone else RTrue.
Proof.
  destruct p; simpl;
    destruct b; simpl; try reflexivity;
    try (destruct (nonempty _); reflexivity);
    destruct (read_file w (links_path w)); reflexivity.
Qed.

Lemma on_key_ret_false R w ft p :
  ret (on_key R w ft p) = RFalse <-> branch_of p = None.
Proof.
  split.
  - destruct (branch_of p) as [b|] eqn:Hb; [|done].
    rewrite (on_key_runs_branch R w ft p b Hb). simpl.
    rewrite run_branch_ret. by case_bool_decide.
  - intros H. by rewrite on_key_unmatched.
Qed.


(** ** What a run of the handler hands to the engine *)

Lemma navigations_debug_line w p : navigations (debug_line w p) = [].
Proof. unfold debug_line. destruct (truthy _), p; reflexivity. Qed.

Lemma processes_debug_line w p : processes (debug_line w p) = [].
Proof. unfold debug_line. destruct (truthy _), p; reflexivity. Qed.

Lemma printed_debug_line w p : printed (debug_line w p) = [].
Proof. unfold debug_line. destruct (truthy _), p; reflexivity. Qed.

Lemma on_key_navigations R w ft p b :
  branch_of p = Some b ->
  navigations (effects (on_key R w ft p))
  = navigations (effects (run_branch R w ft p b)).
Proof.
  intros Hb. rewrite (on_key_runs_branch R w ft p b Hb). simpl.
  unfold navigations. rewrite omap_app.
  fold (navigations (debug_line w p)). by rewrite navigations_debug_line.
Qed.

Lemma on_key_processes R w ft p b :
  branch_of p = Some b ->
  processes (effects (on_key R w ft p))
  = processes (effects (run_branch R w ft p b)).
Proof.
  intros Hb. rewrite (on_key_runs_branch R w ft p b Hb). simpl.
  unfold processes. rewrite omap_app.
  fold (processes (debug_line w p)). by rewrite processes_debug_line.
Qed.

Lemma on_key_printed R w ft p b :
  branch_of p = Some b ->
  printed (effects (on_key R w ft p))
  = printed (effects (run_branch R w ft p b)).
Proof.
  intros Hb. rewrite (on_key_runs_branch R w ft p b Hb). simpl.
  unfold printed. rewrite omap_app.
  fold (printed (debug_line w p)). by rewrite printed_debug_line.
Qed.

Lemma elem_of_navigations effs u : u ∈ navigations effs <-> Load u ∈ effs.
Proof.
  unfold navigations. rewrite list_elem_of_omap. split.
  - intros (x & Hx & Hu). destruct x; try discriminate Hu. by injection Hu as ->.
  - intros H. by exists (Load u).
Qed.

Lemma elem_of_processes effs argv :
  argv ∈ processes effs <-> exists input, RunProcess argv input ∈ effs.
Proof.
  unfold processes. rewrite list_elem_of_omap. split.
  - intros (x & Hx & Hu). destruct x; try discriminate Hu.
    injection Hu as ->. eauto.
  - intros [input H]. by exists (RunProcess argv input).
Qed.

(** The two load-from-buffer branches, in either shell. *)
Lemma load_branch_effects R w ft p b :
  b = BLoadTmux \/ b = BLoadClipboard ->
  let o := run_branch R w ft p b in
  navigations (effects o)
  = (if is_valid_url (fetched w p b) then [default [] (fetched w p b)] else [])
  /\ exists msg, printed (effects o) = [msg].
Proof.
  intros Hb. destruct p; destruct Hb as [-> | ->];
    unfold run_branch, Gtk.run, Qt.run, fetched; cbn [effects handled];
    destruct (is_valid_url _); simpl; eauto.
Qed.

(** ** C4 *)

(** C4.  A key press that reaches the Ctrl+G branch (text of the tmux
    buffer, stripped) or the Ctrl+Shift+G branch (text of the
    clipboard), in either shell: the fetched text is handed to the
    engine's load operation if and only if it is non-empty and starts
    with http://, https://, ftp:// or file://; otherwise one line is
    printed and nothing is loaded. *)
Theorem C4_buffer_text_loaded_iff_url_shaped R w ft p b :
  branch_of p = Some b ->
  b = BLoadTmux \/ b = BLoadClipboard ->
  (forall u, Load u ∈ effects (on_key R w ft p)
             <-> fetched w p b = Some u /\ url_shaped u)
  /\ (forall t, fetched w p b = Some t -> url_shaped t ->
        navigations (effects (on_key R w ft p)) = [t])
  /\ (~ (exists t, fetched w p b = Some t /\ url_shaped t) ->
        navigations (effects (on_key R w ft p)) = []
        /\ exists msg, printed (effects (on_key R w ft p)) = [msg]).
Proof.
  intros Hp Hb.
  destruct (load_branch_effects R w ft p b Hb) as [Hnav Hmsg].
  rewrite (on_key_printed R w ft p b Hp).
  rewrite (on_key_navigations R w ft p b Hp), Hnav.
  split; [|split].
  - intros u. rewrite <- elem_of_navigations.
    rewrite (on_key_navigations R w ft p b Hp), Hnav.
    destruct (is_valid_url (fetched w p b)) eqn:Hv.
    + apply is_valid_url_spec in Hv as (t & Ht & Hs). rewrite Ht. simpl.
      rewrite list_elem_of_singleton. split.
      * by intros ->.
      * by intros [[= ->] _].
    + apply is_valid_url_false in Hv. split.
      * by intros ?%elem_of_nil.
      * intros [Hu Hs]. destruct Hv. eauto.
  - intros t Ht Hs.
    assert (is_valid_url (fetched w p b) = true) as ->
        by (apply is_valid_url_spec; eauto).
    by rewrite Ht.
  - intros Hn. apply is_valid_url_false in Hn. by rewrite Hn.
Qed.

Lemma C4_witness :
  navigations (effects (on_key ascii_runtime sample_world [] (gtk_press (CtrlShift "g"))))
  = [lit "https://example.org/"].
Proof.
  refine (proj1 (proj2 (C4_buffer_text_loaded_iff_url_shaped
            ascii_runtime sample_world [] (gtk_press (CtrlShift "g")) BLoadClipboard
            _ _)) (lit "https://example.org/") _ _).
  - reflexivity.
  - right; reflexivity.
  - reflexivity.
  - split; [discriminate|].
    exists (lit "https://"), (lit "example.org/"). split; [|reflexivity].
    apply list_elem_of_In. simpl. auto.
Defined.

(** ** C1 *)

(** C1, where it fails.  A key press that reaches the Ctrl+B branch
    while the bookmarks file is missing: a case of the table matched,
    yet [on_key] returns nothing (a bare [return]) rather than [True],
    in both shells; the Qt event filter then reports the event as not
    handled.  Every other matched case returns [True]
    ([on_key_ret_true]), an unmatched press returns [False]
    ([on_key_ret_false]), and the case run is the first of the table
    that matches ([gtk_dispatch_first_match], [qt_dispatch_first_match],
    [on_key_runs_branch]). *)
Theorem C1_missing_bookmarks_not_reported_handled R w ft p :
  branch_of p = Some BBookmarks ->
  read_file w (links_path w) = None ->
  ret (on_key R w ft p) = RNone
  /\ ret (on_key R w ft p) <> RTrue
  /\ (forall e, p = QtPress e -> (Qt.eventFilter R w ft true e).1 = false).
Proof.
  intros Hp Hf.
  assert (ret (on_key R w ft p) = RNone) as Hr.
  { rewrite (on_key_runs_branch R w ft p _ Hp). simpl.
    rewrite run_branch_ret. by rewrite bool_decide_eq_true_2. }
  split; [done|]. split; [by rewrite Hr|].
  intros e ->. unfold Qt.eventFilter. simpl in Hr |- *. by rewrite Hr.
Qed.

Lemma C1_witness :
  branch_of (qt_press (Ctrl "b")) = Some BBookmarks
  /\ read_file sample_world (links_path sample_world) = None
  /\ ret (on_key ascii_runtime sample_world [] (qt_press (Ctrl "b"))) = RNone.
Proof.
  split; [reflexivity|]. split; [reflexivity|].
  exact (proj1 (C1_missing_bookmarks_not_reported_handled
                  ascii_runtime sample_world [] (qt_press (Ctrl "b"))
                  eq_refl eq_refl)).
Defined.

(** Several predicates of the table can hold for one event; only the
    first case runs.  Ctrl+Alt+L in the GTK shell matches both the
    Ctrl+L case and the Alt+L case, and the dmenu prompt is what runs. *)
Example gtk_first_match_wins :
  let e := {| Gtk.keyval := Gtk.KEY_l; Gtk.state := 12 |} in
  filter (fun c => c.2 e = true) Gtk.cases
    = filter (fun c => bool_decide (c.1 = BChangeUrl \/ c.1 = BForwardL)) Gtk.cases
  /\ Gtk.dispatch e = Some BChangeUrl.
Proof. split; reflexivity. Qed.

(** ** C8 *)

Lemma links_path_spec w :
  links_path w = match getenv w "BOOKMARKS_FILE" with
                 | Some (c :: p) => c :: p
                 | _ => expanduser w (lit "~/data/links.txt")
                 end.
Proof. unfold links_path, py_or. by destruct (getenv _ _) as [[|c p]|]. Qed.

(** C8.  A key press that reaches the Ctrl+B branch, in either shell,
    while opening the bookmarks file (BOOKMARKS_FILE, else
    ~/data/links.txt expanded) raises FileNotFoundError: the handler
    prints the missing path and returns; no process is started (so no
    dmenu), nothing is loaded, the find term is untouched. *)
Theorem C8_missing_bookmarks_aborts R w ft p :
  branch_of p = Some BBookmarks ->
  read_file w (links_path w) = None ->
  effects (on_key R w ft p)
    = debug_line w p ++ [OpenFile (links_path w);
                         Print (lit "Links file not found: " ++ links_path w)]
  /\ processes (effects (on_key R w ft p)) = []
  /\ navigations (effects (on_key R w ft p)) = []
  /\ ret (on_key R w ft p) = RNone
  /\ slot (on_key R w ft p) = ft.
Proof.
  intros Hp Hf.
  rewrite (on_key_processes R w ft p _ Hp), (on_key_navigations R w ft p _ Hp).
  rewrite (on_key_runs_branch R w ft p _ Hp).
  destruct p; simpl; rewrite Hf; by repeat split.
Qed.

Lemma C8_witness :
  processes (effects (on_key ascii_runtime sample_world [] (gtk_press (Ctrl "b")))) = []
  /\ printed (effects (on_key ascii_runtime sample_world [] (gtk_press (Ctrl "b"))))
     = [lit "Links file not found: /home/u/data/links.txt"].
Proof.
  pose proof (C8_missing_bookmarks_aborts ascii_runtime sample_world []
                (gtk_press (Ctrl "b")) eq_refl eq_refl) as (He & Hp & _).
  split; [exact Hp|]. rewrite He. reflexivity.
Defined.

(** With the file present dmenu is started on its text. *)
Lemma bookmarks_present_runs_dmenu R w ft p links :
  branch_of p = Some BBookmarks ->
  read_file w (links_path w) = Some links ->
  processes (effects (on_key R w ft p)) = [dmenu_links].
Proof.
  intros Hp Hf. rewrite (on_key_processes R w ft p _ Hp).
  destruct p; simpl; rewrite Hf; simpl; by destruct (nonempty _).
Qed.

(** ** C9 *)

(** C9.  A key press that reaches the Ctrl+L branch, in either shell:
    dmenu is started with the current URL, and its answer, stripped, is
    handed to the engine's load operation whenever it is non-empty,
    whatever its shape; an empty answer loads nothing. *)
Theorem C9_dmenu_url_loaded_unvalidated R w ft p :
  branch_of p = Some BChangeUrl ->
  processes (effects (on_key R w ft p)) = [dmenu_url]
  /\ (strip (dmenu w dmenu_url (web_uri w)) <> [] ->
        navigations (effects (on_key R w ft p))
        = [strip (dmenu w dmenu_url (web_uri w))])
  /\ (strip (dmenu w dmenu_url (web_uri w)) = [] ->
        navigations (effects (on_key R w ft p)) = []).
Proof.
  intros Hp.
  rewrite (on_key_processes R w ft p _ Hp), (on_key_navigations R w ft p _ Hp).
  destruct p; simpl;
    destruct (strip (dmenu w dmenu_url (web_uri w))) eqn:Hs; simpl;
    repeat split; congruence.
Qed.

(** The same text that the Ctrl+G path rejects is loaded by Ctrl+L. *)
Lemma C9_witness :
  is_valid_url (Some (lit "ls -la")) = false
  /\ navigations (effects (on_key ascii_runtime (typing (lit " ls -la ") sample_world) []
                             (gtk_press (Ctrl "l")))) = [lit "ls -la"]
  /\ navigations (effects (on_key ascii_runtime sample_world []
                             (gtk_press (Ctrl "g")))) = [].
Proof.
  split; [reflexivity|]. split; [|reflexivity].
  refine (proj1 (proj2 (C9_dmenu_url_loaded_unvalidated ascii_runtime
            (typing (lit " ls -la ") sample_world) [] (gtk_press (Ctrl "l")) eq_refl)) _).
  discriminate.
Defined.

(** ** C5 *)









(** Where the tables part ways: the GTK predicates test bits, so any
    further modifier still matches, and a mask of two bits is satisfied
    by either; the Qt predicates compare the whole modifier set. *)
Example gtk_shift_p_saves_pdf :
  let shift_p := {| sym := SymChar 112; ctrl := false; shift := true; alt := false |} in
  Gtk.dispatch (gtk_event shift_p) = Some BSavePdf
  /\ Qt.dispatch (qt_event shift_p) = None.
Proof. split; reflexivity. Qed.

(** The find branches search differently: the GTK shell without regard
    to case and, for next and previous, through the engine's own find
    controller; the Qt shell with regard to case and from its slot. *)
Example find_calls_differ :
  let w := typing (lit "Word") sample_world in
  effects (Gtk.run w [] BFind)
    = [RunProcess dmenu_find (Some []); FindSearch (lit "Word") true 9999;
       Print (lit "Searching: Word")]
  /\ effects (Qt.run ascii_runtime w [] BFind)
    = [RunProcess dmenu_find (Some []); FindText (lit "Word") false true;
       Print (lit "Searching: Word")]
  /\ effects (Gtk.run w [] BFindNext) = [FindSearchNext; Print (lit "Find next")]
  /\ effects (Qt.run ascii_runtime w [] BFindNext) = [].
Proof. repeat split; reflexivity. Qed.

(** The debug line shows each toolkit's own numbers for the same key
    combination. *)
Example debug_lines_differ :
  let w := setenv sample_world "DBROWSER_DEBUG" (lit "1") in
  effects (on_key ascii_runtime w [] (gtk_press (Ctrl "q")))
    = [PrintKey 113 4; Print (lit "Quitting..."); Quit]
  /\ effects (on_key ascii_runtime w [] (qt_press (Ctrl "q")))
    = [PrintKey 81 67108864; Print (lit "Quitting..."); Quit].
Proof. split; reflexivity. Qed.

(** ** C6 *)

Lemma gtk_find_next_ignores_slot w b :
  b = BFindNext \/ b = BFindPrevious ->
  ~ depends_on_slot (fun ft => effects (Gtk.run w ft b)).
Proof. intros [-> | ->] (x & y & H); by apply H. Qed.

(** C6 as stated fails for the GTK shell.  Ctrl+N there makes the same
    two calls whatever the slot holds: the slot is not read. *)
Lemma C6_counterexample :
  effects (on_key ascii_runtime sample_world [] (gtk_press (Ctrl "n")))
    = [FindSearchNext; Print (lit "Find next")]
  /\ ~ depends_on_slot
         (fun ft => effects (on_key ascii_runtime sample_world ft (gtk_press (Ctrl "n"))))
  /\ ~ depends_on_slot
         (fun ft => effects (on_key ascii_runtime sample_world ft
                               (gtk_press (CtrlShift "n")))).
Proof.
  split; [reflexivity|]. split; intros (x & y & H); by apply H.
Qed.

Lemma on_key_slot R w ft p :
  slot (on_key R w ft p)
  = if bool_decide (branch_of p = Some BFind) && nonempty (strip (dmenu w dmenu_find ft))
    then strip (dmenu w dmenu_find ft) else ft.
Proof.
  destruct (branch_of p) as [b|] eqn:Hb.
  - rewrite (on_key_runs_branch R w ft p b Hb). simpl.
    destruct p; simpl; destruct b; simpl; try reflexivity;
      try (destruct (nonempty _); reflexivity);
      destruct (read_file _ _); reflexivity.
  - by rewrite on_key_unmatched.
Qed.

(** C6, amended.  The find term starts empty; a run of the handler
    replaces it exactly when it reaches the Ctrl+F branch and the
    stripped answer of dmenu is non-empty, and then by that answer; it
    never becomes empty again.  It is read by the Ctrl+F branch of both
    shells (as the text offered by dmenu) and by the find-next and
    find-previous branches of the Qt shell; the find-next and
    find-previous branches of the GTK shell do not read it. *)
Theorem C6_find_term_slot R w :
  find_text_init = []
  /\ (forall ft p,
        slot (on_key R w ft p)
        = if bool_decide (branch_of p = Some BFind)
             && nonempty (strip (dmenu w dmenu_find ft))
          then strip (dmenu w dmenu_find ft) else ft)
  /\ (forall ft p, ft <> [] -> slot (on_key R w ft p) <> [])
  /\ (forall ft p, branch_of p = Some BFind ->
        RunProcess dmenu_find (Some ft) ∈ effects (on_key R w ft p))
  /\ (forall ft b, b = BFindNext \/ b = BFindPrevious -> ft <> [] ->
        FindText ft (bool_decide (b = BFindPrevious)) true
          ∈ effects (Qt.run R w ft b))
  /\ (forall b, b = BFindNext \/ b = BFindPrevious ->
        depends_on_slot (fun ft => effects (Qt.run R w ft b))
        /\ ~ depends_on_slot (fun ft => effects (Gtk.run w ft b))).
Proof.
  split; [reflexivity|]. split; [apply on_key_slot|]. split; [|split; [|split]].
  - intros ft p Hne. rewrite on_key_slot.
    destruct (bool_decide _ && nonempty _) eqn:Hc; [|done].
    apply andb_true_iff in Hc as [_ Hc]. by apply nonempty_true.
  - intros ft p Hp. rewrite (on_key_runs_branch R w ft p _ Hp). simpl.
    apply elem_of_app. right.
    destruct p; simpl; destruct (nonempty _); simpl; apply list_elem_of_here.
  - intros ft b [-> | ->] Hne; apply nonempty_true in Hne; simpl; rewrite Hne;
      apply list_elem_of_here.
  - intros b Hb. split; [|by apply gtk_find_next_ignores_slot].
    exists [], [120%N]. by destruct Hb as [-> | ->].
Qed.

Lemma C6_witness :
  slot (on_key ascii_runtime (typing (lit " rocq ") sample_world) (lit "old")
          (qt_press (Ctrl "f"))) = lit "rocq"
  /\ slot (on_key ascii_runtime (typing (lit "  ") sample_world) (lit "old")
             (qt_press (Ctrl "f"))) <> [].
Proof.
  split.
  - rewrite (proj1 (proj2 (C6_find_term_slot ascii_runtime
                             (typing (lit " rocq ") sample_world)))).
    reflexivity.
  - apply (proj1 (proj2 (proj2 (C6_find_term_slot ascii_runtime
                             (typing (lit "  ") sample_world))))).
    discriminate.
Defined.

(** ** C7 *)

Lemma try_load_url_after_load l p :
  Qt.has_loaded p = true -> Qt.try_load_url l p = (p, []).
Proof.
  intros H. unfold Qt.try_load_url. rewrite H. by rewrite andb_false_r.
Qed.

Lemma showEvent_keeps_has_loaded u p :
  Qt.has_loaded (Qt.showEvent u p) = Qt.has_loaded p.
Proof. unfold Qt.showEvent. by destruct (nonempty u). Qed.

Lemma poll_step_after_load u p ev :
  Qt.has_loaded p = true ->
  (Qt.poll_step u p ev).2 = [] /\ Qt.has_loaded (Qt.poll_step u p ev).1 = true.
Proof.
  intros H. destruct ev as [|l]; simpl.
  - by rewrite showEvent_keeps_has_loaded.
  - destruct (Qt.timer_active p); [|done].
    by rewrite (try_load_url_after_load l p H).
Qed.

Lemma poll_run_after_load u evs : forall p,
  Qt.has_loaded p = true ->
  (Qt.poll_run u p evs).2 = [] /\ Qt.has_loaded (Qt.poll_run u p evs).1 = true.
Proof.
  induction evs as [|ev evs IH]; intros p H; simpl; [done|].
  destruct (poll_step_after_load u p ev H) as [He Hl].
  destruct (Qt.poll_step u p ev) as [p1 e1]. simpl in He, Hl. subst e1.
  destruct (IH p1 Hl) as [He2 Hl2].
  destruct (Qt.poll_run u p1 evs) as [p2 e2]. simpl in *. by subst e2.
Qed.

Lemma poll_run_app u evs1 evs2 : forall p,
  Qt.poll_run u p (evs1 ++ evs2)
  = let '(p1, e1) := Qt.poll_run u p evs1 in
    let '(p2, e2) := Qt.poll_run u p1 evs2 in
    (p2, e1 ++ e2).
Proof.
  induction evs1 as [|ev evs1 IH]; intros p; simpl.
  - by destruct (Qt.poll_run u p evs2).
  - destruct (Qt.poll_step u p ev) as [p1 e1]. rewrite IH.
    destruct (Qt.poll_run u p1 evs1) as [p2 e2].
    destruct (Qt.poll_run u p2 evs2) as [p3 e3]. by rewrite app_assoc.
Qed.

(** While the engine does not report a load, every timeout submits the
    pending URL again and leaves the slots as they are. *)
Lemma poll_run_not_ready u k p :
  u <> [] -> Qt.pending_url p = Some u -> Qt.has_loaded p = false ->
  Qt.timer_active p = true ->
  Qt.poll_run u p (replicate k (Qt.Timeout false)) = (p, replicate k (Load u)).
Proof.
  intros Hu Hp Hl Ht. induction k as [|k IH]; simpl; [done|].
  rewrite Ht. unfold Qt.try_load_url. rewrite Hp, Hl. simpl.
  apply nonempty_true in Hu. rewrite Hu. simpl. by rewrite IH.
Qed.

(** C7.  In the Qt shell: the show event stores the start URL in the
    pending slot; the poll routine submits a URL to the engine's load
    exactly when the slot holds it, non-empty, and no load has been
    observed; when the engine then reports loading, the slot is
    cleared, the flag set and the timer stopped; from then on no show
    event and no timeout makes the poll routine load anything.  From
    start-up: shown, [k] timeouts before the engine is ready and one
    when it is submit the start URL [k + 1] times, and whatever
    follows submits nothing. *)
Theorem C7_pending_url_defers_first_navigation (u : list N) :
  (forall p, Qt.pending_url (Qt.showEvent u p)
             = if nonempty u then Some u else Qt.pending_url p)
  /\ (forall l p v, Load v ∈ (Qt.try_load_url l p).2
                    <-> Qt.pending_url p = Some v /\ v <> []
                        /\ Qt.has_loaded p = false)
  /\ (forall p, truthy (Qt.pending_url p) = true -> Qt.has_loaded p = false ->
        (Qt.try_load_url true p).1
        = {| Qt.pending_url := None; Qt.has_loaded := true; Qt.timer_active := false |})
  /\ (forall p evs, Qt.has_loaded p = true ->
        (Qt.poll_run u p evs).2 = []
        /\ Qt.has_loaded (Qt.poll_run u p evs).1 = true)
  /\ (forall k evs, u <> [] ->
        (Qt.poll_run u Qt.poll_init
           (Qt.Shown :: replicate k (Qt.Timeout false) ++ Qt.Timeout true :: evs)).2
        = replicate (S k) (Load u)).
Proof.
  split; [|split; [|split; [|split]]].
  - intros p. unfold Qt.showEvent. by destruct (nonempty u).
  - intros l p v. unfold Qt.try_load_url.
    destruct (Qt.pending_url p) as [t|] eqn:Hp; simpl.
    + destruct (nonempty t) eqn:Hn; simpl.
      * apply nonempty_true in Hn.
        destruct (Qt.has_loaded p); simpl.
        -- split; [by intros ?%elem_of_nil | by intros (_ & _ & ?)].
        -- destruct l; simpl; rewrite list_elem_of_singleton;
             (split; [by intros [= ->] | by intros ([= ->] & _ & _)]).
      * apply nonempty_false in Hn. subst t.
        split; [by intros ?%elem_of_nil | by intros ([= <-] & ? & _)].
    + split; [by intros ?%elem_of_nil | by intros (? & _)].
  - intros p Ht Hl. unfold Qt.try_load_url. by rewrite Ht, Hl.
  - intros p evs. apply poll_run_after_load.
  - intros k evs Hu. cbn [Qt.poll_run Qt.poll_step].
    assert (Qt.showEvent u Qt.poll_init
            = {| Qt.pending_url := Some u; Qt.has_loaded := false;
                 Qt.timer_active := true |}) as ->.
    { unfold Qt.showEvent. apply nonempty_true in Hu. by rewrite Hu. }
    rewrite poll_run_app.
    rewrite (poll_run_not_ready u k
               {| Qt.pending_url := Some u; Qt.has_loaded := false;
                  Qt.timer_active := true |} Hu eq_refl eq_refl eq_refl).
    cbn [Qt.poll_run Qt.poll_step Qt.timer_active].
    unfold Qt.try_load_url. cbn [Qt.pending_url Qt.has_loaded truthy negb].
    pose proof Hu as Hn. apply nonempty_true in Hn. rewrite Hn. cbn [andb].
    destruct (poll_run_after_load u evs
                {| Qt.pending_url := None; Qt.has_loaded := true;
                   Qt.timer_active := false |} eq_refl) as [He _].
    destruct (Qt.poll_run u _ evs) as [p2 e2]. simpl in He. subst e2. simpl.
    change (Load u :: replicate k (Load u)) with (replicate (S k) (Load u)).
    by rewrite replicate_S_end.
Qed.

Lemma C7_witness :
  (Qt.poll_run (lit "https://example.org/") Qt.poll_init
     [Qt.Shown; Qt.Timeout false; Qt.Timeout false; Qt.Timeout true;
      Qt.Shown; Qt.Timeout true]).2
  = [Load (lit "https://example.org/"); Load (lit "https://example.org/");
     Load (lit "https://example.org/")].
Proof.
  refine (proj2 (proj2 (proj2 (proj2 (C7_pending_url_defers_first_navigation
            (lit "https://example.org/"))))) 2 [Qt.Shown; Qt.Timeout true] _).
  discriminate.
Defined.

(** ** C10 *)

(** Rounding never carries the product up to the population size: the
    product is at least [n] below [n * 2^53], and half a unit in the last
    place is less than [n]. *)
Lemma round_double_lt (k n : N) :
  (k < 2 ^ 53 -> 0 < n -> round_double (k * n) < n * 2 ^ 53)%N.
Proof.
  intros Hk Hn. unfold round_double.
  set (x := (k * n)%N). assert (Hx : (x + n <= n * 2 ^ 53)%N) by (unfold x; nia).
  destruct (N.leb_spec (N.size x) 53) as [Hb|Hb]; [lia|].
  set (s := (N.size x - 53)%N). set (h := (2 ^ (s - 1))%N).
  assert (Hs : (2 ^ s = 2 * h)%N).
  { unfold h. rewrite <- N.pow_succ_r'. f_equal. lia. }
  assert (Hh : (h < n)%N).
  { pose proof (N.size_le x) as Hle.
    replace (N.size x) with (N.succ (s - 1) + 53)%N in Hle by lia.
    rewrite N.pow_add_r, N.pow_succ_r' in Hle. fold h in Hle.
    rewrite N.succ_double_spec in Hle. nia. }
  pose proof (N.Div0.div_mod x (2 ^ s)) as Hdiv.
  pose proof (N.mod_lt x (2 ^ s)) as Hmod.
  rewrite Hs in *.
  set (q := (x / (2 * h))%N) in *. set (r := (x mod (2 * h))%N) in *.
  assert (0 < h)%N by (unfold h; apply N.neq_0_lt_0, N.pow_nonzero; lia).
  destruct (N.ltb_spec r h); [nia|].
  destruct (N.ltb_spec h r); [nia|].
  destruct (N.even q); nia.
Qed.

(** A draw where the rounding of the product decides the index:
    2001599834386887 * 36 / 2^53 lies just below 8, and the nearest
    double is 8. *)
Example round_double_decides :
  (round_double (2001599834386887 * 36) / 2 ^ 53 = 8
   /\ 2001599834386887 * 36 / 2 ^ 53 = 7)%N.
Proof. split; reflexivity. Qed.

Lemma random_index_lt w n i : 0 < n -> random_index w n i < n.
Proof.
  intros Hn. unfold random_index.
  assert (round_double ((random53 w i mod 2 ^ 53) * N.of_nat n) / 2 ^ 53
          < N.of_nat n)%N; [|lia].
  apply N.Div0.div_lt_upper_bound. rewrite (N.mul_comm (2 ^ 53)).
  apply round_double_lt; [apply N.mod_lt|]; lia.
Qed.

Lemma random_choices_length w population k :
  length (random_choices w population k) = k.
Proof. unfold random_choices. by rewrite length_fmap, length_seq. Qed.

Lemma random_choices_drawn w population k :
  population <> [] ->
  Forall (fun c => c ∈ population) (random_choices w population k).
Proof.
  intros Hne. unfold random_choices. apply Forall_forall. intros c Hc.
  apply list_elem_of_fmap in Hc as (i & -> & _).
  apply list_elem_of_lookup_total_2, random_index_lt.
  destruct population; simpl; [done | lia].
Qed.

Lemma ascii_isalnum_not_slash : ascii_isalnum 47 = false.
Proof. reflexivity. Qed.

Lemma safe_char_spec R c :
  safe_char R c
  = if bool_decide (isalnum R c = true \/ c = 45%N \/ c = 95%N) then c else 95%N.
Proof.
  unfold safe_char. change (lit "-_") with [45%N; 95%N].
  destruct (isalnum R c) eqn:Ha; cbn [orb].
  - rewrite bool_decide_eq_true_2; [done | by left].
  - case_bool_decide as H1; case_bool_decide as H2; try done.
    + exfalso. apply H2. right.
      apply elem_of_cons in H1 as [->| H1]; [by left|].
      apply list_elem_of_singleton in H1. by right.
    + exfalso. apply H1. destruct H2 as [H2|[->| ->]]; [done| |].
      * apply list_elem_of_here.
      * apply list_elem_of_further, list_elem_of_here.
Qed.

Lemma safe_char_not_slash R c : safe_char R c <> 47%N.
Proof.
  rewrite safe_char_spec. case_bool_decide as H; [|done].
  intros ->. destruct H as [H|[H|H]]; discriminate H.
Qed.

Lemma no_slash_in (l : list N) : bool_decide (47%N ∈ l) = false -> 47%N ∉ l.
Proof. apply bool_decide_eq_false. Qed.


(** C10.  For every title and extension, [get_save_path] returns
    <download-dir>/<sanitized>__<suffix>.<ext>: <sanitized> is the
    title with every character that is not alphanumeric, '-' or '_'
    replaced by '_'; <suffix> is seven characters drawn from the
    lowercase ASCII letters and the digits; so no '/' comes from the
    title or from the suffix. *)
Theorem C10_get_save_path_shape R w title ext :
  exists sanitized suffix,
    get_save_path R w title ext
      = download_dir w ++ lit "/" ++ sanitized ++ lit "__" ++ suffix ++ lit "." ++ ext
    /\ length sanitized = length title
    /\ (forall i, sanitized !! i
          = (fun c => if bool_decide (isalnum R c = true \/ c = 45%N \/ c = 95%N)
                      then c else 95%N) <$> title !! i)
    /\ length suffix = 7
    /\ Forall (fun c => c ∈ lit "abcdefghijklmnopqrstuvwxyz0123456789") suffix
    /\ 47%N ∉ sanitized ++ lit "__" ++ suffix ++ lit ".".
Proof.
  exists (safe_char R <$> title), (random_choices w (ascii_lowercase ++ digits) 7).
  assert (Forall (fun c => c ∈ lit "abcdefghijklmnopqrstuvwxyz0123456789")
            (random_choices w (ascii_lowercase ++ digits) 7)) as Hdrawn.
  { apply (random_choices_drawn w (ascii_lowercase ++ digits) 7). discriminate. }
  assert (47%N ∉ (safe_char R <$> title)) as Hs.
  { intros (c & Hc & _)%list_elem_of_fmap. by eapply safe_char_not_slash. }
  assert (47%N ∉ random_choices w (ascii_lowercase ++ digits) 7) as Hr.
  { intros Hin. rewrite Forall_forall in Hdrawn. apply Hdrawn in Hin.
    revert Hin. by apply no_slash_in. }
  assert (47%N ∉ lit "__") as Hu by (by apply no_slash_in).
  assert (47%N ∉ lit ".") as Hd by (by apply no_slash_in).
  split; [reflexivity|]. split; [apply length_fmap|]. split.
  { intros i. rewrite list_lookup_fmap.
    destruct (title !! i) as [c|]; simpl; [|done]. by rewrite safe_char_spec. }
  split; [apply random_choices_length|]. split; [exact Hdrawn|].
  rewrite !not_elem_of_app. auto.
Qed.


Example get_save_path_sample :
  get_save_path ascii_runtime sample_world (lit "../../etc/passwd") (lit "pdf")
  = lit "/home/u/Downloads/______etc_passwd__aejoty3.pdf".
Proof. reflexivity. Qed.

(** ** Start-up: C2 and C3 *)

Lemma getenv_setenv_ne w k v k' :
  k <> k' -> getenv (setenv w k v) k' = getenv w k'.
Proof. intros H. unfold getenv, setenv. simpl. by rewrite lookup_insert_ne. Qed.

Lemma getenv_setenv_eq w k v : getenv (setenv w k v) k = Some v.
Proof. unfold getenv, setenv. simpl. by rewrite lookup_insert_eq. Qed.

Lemma getenv_default_setenv_ne w k v k' d :
  k <> k' -> getenv_default (setenv w k v) k' d = getenv_default w k' d.
Proof. intros H. unfold getenv_default, setenv. simpl. by rewrite lookup_insert_ne. Qed.

Lemma not_listed (x : list N) (l : list (list N)) :
  bool_decide (x ∈ l) = false -> x ∉ l.
Proof. apply bool_decide_eq_false. Qed.

Lemma not_help_flag (url : list N) :
  url ∉ [lit "-h"; lit "--help"] ->
  bool_decide (url ∈ [lit "-h"; lit "--help"]) = false.
Proof. apply bool_decide_eq_false_2. Qed.

(** C2, where it fails.  A DBROWSER_SIZE that does not read as two
    integers around one 'x': the [ValueError] of line
    [w, h = map(int, size.split('x'))] is not caught, in either file;
    the program stops there, before any window size or view setting is
    applied.  (The [try] around [int(memory_limit)] in browser.py does
    catch its [ValueError]: [gtk_malformed_memory_limit_ignored].) *)
Theorem C2_malformed_size_aborts R w prog url rest :
  url ∉ [lit "-h"; lit "--help"] ->
  parse_size R (getenv_default w "DBROWSER_SIZE" (lit "800x600")) = None ->
  Gtk.startup R w (prog :: url :: rest) = Crash (Gtk.context R w ++ [NewWindow])
  /\ (exists calls, Qt.startup R w (prog :: url :: rest) = Crash calls
                    /\ NewView ∉ calls).
Proof.
  intros Hh Hs. unfold Gtk.startup, Qt.startup.
  rewrite (not_help_flag url Hh), Hs. split; [reflexivity|].
  eexists. split; [reflexivity|].
  intros Hin. repeat (apply elem_of_cons in Hin as [Hin|Hin]; [discriminate Hin|]).
  by apply elem_of_nil in Hin.
Qed.

Lemma C2_witness :
  parse_size ascii_runtime (lit "abc") = None
  /\ Gtk.startup ascii_runtime (setenv sample_world "DBROWSER_SIZE" (lit "abc"))
       [lit "browser.py"; lit "https://example.org/"]
     = Crash [DefaultContext; NoThirdPartyCookies; NewWindow].
Proof.
  split; [reflexivity|].
  refine (eq_trans (proj1 (C2_malformed_size_aborts ascii_runtime
            (setenv sample_world "DBROWSER_SIZE" (lit "abc"))
            (lit "browser.py") (lit "https://example.org/") [] _ _)) _).
  - apply not_listed. reflexivity.
  - reflexivity.
  - reflexivity.
Defined.

(** Sizes that abort the start-up, and the default that does not. *)
Example parse_size_samples :
  parse_size ascii_runtime (lit "800x600") = Some (800, 600)%Z
  /\ parse_size ascii_runtime (lit " 1_024 x+768") = Some (1024, 768)%Z
  /\ parse_size ascii_runtime (lit "abc") = None
  /\ parse_size ascii_runtime (lit "800") = None
  /\ parse_size ascii_runtime (lit "800x") = None
  /\ parse_size ascii_runtime (lit "800X600") = None
  /\ parse_size ascii_runtime (lit "800x600x32") = None
  /\ parse_size ascii_runtime (lit "") = None.
Proof. repeat split; reflexivity. Qed.

(** In browser.py a malformed DBROWSER_MEMORY_LIMIT is caught: no
    memory pressure setting is made, and the context is still built on
    the fresh data manager. *)
Lemma gtk_malformed_memory_limit_ignored R w v :
  getenv w "DBROWSER_MEMORY_LIMIT" = Some v -> v <> [] ->
  py_int R v = None ->
  exists rest,
    Gtk.context R w = NewDataManager :: ContextWithDataManager :: rest
    /\ memory_limits (Gtk.context R w) = [].
Proof.
  intros Hv Hne Hi. unfold Gtk.context, Gtk.memory_pressure. rewrite Hv. simpl.
  apply nonempty_true in Hne. rewrite Hne, Hi. simpl.
  eexists. split; [reflexivity|].
  unfold memory_limits, when.
  destruct (truthy (getenv w "DBROWSER_NO_CACHE") || truthy (getenv w "DBROWSER_LOW_MEM"));
    destruct (truthy (getenv w "DBROWSER_LOW_MEM")); reflexivity.
Qed.

(** *** [int] on plain decimal strings *)

Lemma mapM_to_ascii_digit R (ds : list N) :
  Forall (fun c => is_digit c = true) ds -> mapM (to_ascii_digit R) ds = Some ds.
Proof.
  induction 1 as [|c ds Hc _ IH]; [reflexivity|].
  cbn [mapM]. rewrite IH. unfold to_ascii_digit.
  assert ((c <? 127)%N = true) as ->; [|reflexivity].
  unfold is_digit, in_range in Hc. apply andb_true_iff in Hc as [_ Hc].
  apply N.leb_le in Hc. apply N.ltb_lt. lia.
Qed.

Lemma read_digits_all (ds : list N) : forall prev acc n,
  Forall (fun c => is_digit c = true) ds ->
  ds <> [] \/ prev = true ->
  read_digits ds prev acc n
  = Some (fold_left (fun a c => (10 * a + Z.of_N (c - 48))%Z) ds acc, n + length ds, []).
Proof.
  induction ds as [|c ds IH]; intros prev acc n Hall Hne.
  - destruct Hne as [?| ->]; [done|]. simpl. by rewrite Nat.add_0_r.
  - inversion Hall as [|? ? Hc Hds]; subst. cbn [read_digits]. rewrite Hc.
    rewrite (IH true _ _ Hds (or_intror eq_refl)). simpl.
    by rewrite Nat.add_succ_r.
Qed.

Lemma py_int_decimal R (ds : list N) :
  ds <> [] -> Forall (fun c => is_digit c = true) ds ->
  int_max_str_digits R = 0 \/ length ds <= int_max_str_digits R ->
  py_int R ds = Some (decimal_value ds).
Proof.
  intros Hne Hall Hlim. unfold py_int. rewrite (mapM_to_ascii_digit R ds Hall).
  cbn [mbind option_bind].
  destruct ds as [|c ds]; [done|].
  inversion Hall as [|? ? Hc Hds]; subst.
  assert (c_isspace c = false /\ (c =? 45)%N = false /\ (c =? 43)%N = false)
    as (Hsp & Hm & Hp).
  { unfold is_digit, in_range in Hc. apply andb_true_iff in Hc as [H1 H2].
    apply N.leb_le in H1. apply N.leb_le in H2. unfold c_isspace, in_range.
    repeat split.
    - apply orb_false_iff. split; [apply andb_false_iff; right|]; [apply N.leb_gt|apply N.eqb_neq]; lia.
    - apply N.eqb_neq; lia.
    - apply N.eqb_neq; lia. }
  cbn [skip_blanks]. rewrite Hsp, Hm, Hp.
  rewrite (read_digits_all (c :: ds) false 0%Z 0 Hall (or_introl Hne)).
  cbn [mbind option_bind skip_blanks nonempty].
  rewrite bool_decide_eq_false_2; [reflexivity|].
  simpl in *. lia.
Qed.

(** In browser.py a DBROWSER_MEMORY_LIMIT that reads as the integer
    [n] sets the ceiling to [n] and the three thresholds. *)
Lemma gtk_memory_limit_configured R w v n :
  getenv w "DBROWSER_MEMORY_LIMIT" = Some v -> py_int R v = Some n ->
  exists rest,
    Gtk.context R w
    = NewDataManager :: MemoryLimit n :: KillThreshold (95 # 100)
      :: StrictThreshold (85 # 100) :: ConservativeThreshold (7 # 10)
      :: AttachMemoryPressure :: ContextWithDataManager :: rest.
Proof.
  intros Hv Hi. unfold Gtk.context, Gtk.memory_pressure. rewrite Hv.
  assert (nonempty v = true) as Hne.
  { destruct v; [|done]. vm_compute in Hi. discriminate Hi. }
  simpl. rewrite Hne, Hi. simpl. eauto.
Qed.

Lemma qt_startup_memory_limits R w argv :
  memory_limits (calls_of (Qt.startup R w argv)) = [].
Proof.
  unfold Qt.startup.
  destruct argv as [|prog [|url rest]]; try reflexivity.
  destruct (bool_decide _); [reflexivity|].
  destruct (parse_size R _) as [[width height]|]; [|reflexivity].
  unfold Qt.profile, Qt.page_settings, when, memory_limits. simpl.
  repeat match goal with
         | |- context [if ?c then _ else _] => destruct c
         end; reflexivity.
Qed.

(** C3, where it fails.  The Qt shell reads DBROWSER_MEMORY_LIMIT and
    never uses it: its start-up is the same whatever the variable
    holds, and no call of it sets a memory ceiling.  (The GTK shell
    does set it: [gtk_memory_limit_configured], [py_int_decimal].) *)
Theorem C3_qt_ignores_memory_limit R w v argv :
  Qt.startup R (setenv w "DBROWSER_MEMORY_LIMIT" v) argv = Qt.startup R w argv
  /\ memory_limits (calls_of (Qt.startup R (setenv w "DBROWSER_MEMORY_LIMIT" v) argv)) = [].
Proof.
  split; [|apply qt_startup_memory_limits].
  unfold Qt.startup, Qt.profile, Qt.page_settings.
  rewrite !getenv_setenv_ne by done.
  rewrite getenv_default_setenv_ne by done.
  reflexivity.
Qed.

Example qt_memory_limit_256 :
  py_int ascii_runtime (lit "256") = Some 256%Z
  /\ memory_limits (calls_of (Qt.startup ascii_runtime
                      (setenv sample_world "DBROWSER_MEMORY_LIMIT" (lit "256"))
                      [lit "qtbrowser.py"; lit "https://example.org/"])) = []
  /\ memory_limits (calls_of (Gtk.startup ascii_runtime
                      (setenv sample_world "DBROWSER_MEMORY_LIMIT" (lit "256"))
                      [lit "browser.py"; lit "https://example.org/"])) = [256%Z].
Proof. repeat split; reflexivity. Qed.

(** * Further properties of the two files *)

(** ** The dispatch tables *)

Ltac split_eqb x :=
  repeat match goal with
         | |- context [(x =? ?c)%N] => destruct (N.eqb_spec x c) as [->|?]
         end.


Lemma filter_as_flat_map {A} (f : A -> bool) (l : list A) :
  List.filter f l = flat_map (fun x => if f x then [x] else []) l.
Proof. induction l as [|x l IH]; simpl; [done|]. rewrite IH. by destruct (f x). Qed.

(** X1.  In the Qt shell the predicates of the table exclude one
    another: no key event satisfies two of them, so the order of the
    cases does not matter there. *)
Theorem qt_cases_exclusive (e : Qt.KeyEvent) :
  length (matching Qt.cases e) <= 1.
Proof.
  destruct e as [k m]. unfold matching, Qt.cases. cbv beta zeta.
  rewrite filter_as_flat_map. cbn [flat_map snd Qt.key Qt.modifiers].
  split_eqb m; split_eqb k; vm_compute; lia.
Qed.

Lemma gtk_has_ctrl_or_shift s :
  Gtk.has s Gtk.CTRL_OR_SHIFT
  = Gtk.has s Gtk.CONTROL_MASK || Gtk.has s Gtk.SHIFT_MASK.
Proof.
  unfold Gtk.has, Gtk.CTRL_OR_SHIFT. rewrite N.land_lor_distr_r.
  destruct (N.eqb_spec (N.land s Gtk.CONTROL_MASK) 0) as [Hc|Hc];
    destruct (N.eqb_spec (N.land s Gtk.SHIFT_MASK) 0) as [Hs|Hs]; simpl;
    [apply negb_false_iff | apply negb_true_iff ..];
    [apply N.eqb_eq | apply N.eqb_neq ..]; rewrite N.lor_eq_0_iff; tauto.
Qed.

(** X2.  In the GTK shell two predicates of the table hold at once for
    one kind of event only: the key l with Control and Mod1 (Alt) and
    without Shift, which satisfies the Ctrl+L and the Alt+L case (the
    first, the URL prompt, runs).  Every other event satisfies at most
    one predicate. *)
Theorem gtk_cases_overlap_only_on_ctrl_alt_l (e : Gtk.EventKey) :
  if (Gtk.keyval e =? Gtk.KEY_l)%N && Gtk.has (Gtk.state e) Gtk.CONTROL_MASK
     && Gtk.has (Gtk.state e) Gtk.MOD1_MASK
     && negb (Gtk.has (Gtk.state e) Gtk.SHIFT_MASK)
  then matching Gtk.cases e = [BChangeUrl; BForwardL]
  else length (matching Gtk.cases e) <= 1.
Proof.
  destruct e as [k s]. unfold matching, Gtk.cases. cbv beta zeta.
  rewrite filter_as_flat_map. cbn [flat_map snd Gtk.keyval Gtk.state].
  rewrite !gtk_has_ctrl_or_shift.
  destruct (Gtk.has s Gtk.CONTROL_MASK), (Gtk.has s Gtk.SHIFT_MASK),
    (Gtk.has s Gtk.MOD1_MASK);
    split_eqb k; vm_compute; first [reflexivity | lia].
Qed.

(** X3.  In the Qt shell a binding other than F1, F5 and F12 fires only
    when the modifier set is exactly Control, exactly Control+Shift or
    exactly Alt: any further modifier (keypad, Meta, Ctrl together with
    Alt) makes the handler pass the event on. *)
Theorem qt_binding_needs_exact_modifiers (e : Qt.KeyEvent) (b : Branch) :
  Qt.dispatch e = Some b ->
  Qt.key e ∈ [Qt.Key_F1; Qt.Key_F5; Qt.Key_F12]
  \/ Qt.modifiers e ∈ [Qt.ControlModifier; Qt.CtrlShift; Qt.AltModifier].
Proof.
  destruct e as [k m]. unfold Qt.dispatch. cbn [Qt.key Qt.modifiers].
  split_eqb m; split_eqb k; intros H;
    first [ by (vm_compute in H; discriminate H)
          | solve [left; apply list_elem_of_In; simpl; auto]
          | solve [right; apply list_elem_of_In; simpl; auto] ].
Qed.

Lemma qt_binding_needs_exact_modifiers_witness :
  Qt.dispatch (qt_event (Ctrl "q")) = Some BQuit
  /\ (Qt.key (qt_event (Ctrl "q")) ∈ [Qt.Key_F1; Qt.Key_F5; Qt.Key_F12]
      \/ Qt.modifiers (qt_event (Ctrl "q"))
           ∈ [Qt.ControlModifier; Qt.CtrlShift; Qt.AltModifier]).
Proof.
  split; [reflexivity|].
  exact (qt_binding_needs_exact_modifiers (qt_event (Ctrl "q")) BQuit eq_refl).
Defined.

(** X4.  In the GTK shell the five cases written for Ctrl+Shift test
    [state & (CONTROL | SHIFT)], which either bit satisfies: a capital
    P, S, C, G or U typed with Shift alone (or with Control alone)
    saves the PDF, takes the screenshot, copies the page text, loads
    the clipboard text or copies the URL. *)
Theorem gtk_capital_needs_one_modifier_only (e : Gtk.EventKey) :
  Gtk.has (Gtk.state e) Gtk.SHIFT_MASK = true
  \/ Gtk.has (Gtk.state e) Gtk.CONTROL_MASK = true ->
  (Gtk.keyval e = Gtk.KEY_P -> Gtk.dispatch e = Some BSavePdf)
  /\ (Gtk.keyval e = Gtk.KEY_S -> Gtk.dispatch e = Some BScreenshot)
  /\ (Gtk.keyval e = Gtk.KEY_C -> Gtk.dispatch e = Some BCopyText)
  /\ (Gtk.keyval e = Gtk.KEY_G -> Gtk.dispatch e = Some BLoadClipboard)
  /\ (Gtk.keyval e = Gtk.KEY_U -> Gtk.dispatch e = Some BCopyUrl).
Proof.
  destruct e as [k s]. cbn [Gtk.keyval Gtk.state]. intros H.
  assert (Gtk.has s Gtk.CTRL_OR_SHIFT = true) as Hcs.
  { rewrite gtk_has_ctrl_or_shift. destruct H as [-> | ->]; [apply orb_true_r | done]. }
  unfold Gtk.dispatch. cbn [Gtk.keyval Gtk.state]. rewrite !Hcs.
  repeat split; intros ->; reflexivity.
Qed.

Lemma gtk_capital_needs_one_modifier_only_witness :
  Gtk.dispatch {| Gtk.keyval := Gtk.KEY_G; Gtk.state := Gtk.SHIFT_MASK |}
  = Some BLoadClipboard.
Proof.
  refine (proj1 (proj2 (proj2 (proj2 (gtk_capital_needs_one_modifier_only
            {| Gtk.keyval := Gtk.KEY_G; Gtk.state := Gtk.SHIFT_MASK |} _)))) eq_refl).
  left. reflexivity.
Defined.

Lemma gtk_has_land_13 s mask :
  N.land 13 mask = mask -> Gtk.has (N.land s 13) mask = Gtk.has s mask.
Proof. intros H. unfold Gtk.has. by rewrite <- N.land_assoc, H. Qed.

(** X5.  The GTK dispatch looks at the key value and at the Shift,
    Control and Mod1 bits of the state only: two events that differ in
    other modifier bits (Caps Lock, Num Lock, mouse buttons) are
    dispatched alike. *)
Theorem gtk_dispatch_ignores_other_modifiers (k s1 s2 : N) :
  N.land s1 13 = N.land s2 13 ->
  Gtk.dispatch {| Gtk.keyval := k; Gtk.state := s1 |}
  = Gtk.dispatch {| Gtk.keyval := k; Gtk.state := s2 |}.
Proof.
  intros H. unfold Gtk.dispatch. cbn [Gtk.keyval Gtk.state].
  rewrite <- !(gtk_has_land_13 s1) by reflexivity.
  rewrite <- !(gtk_has_land_13 s2) by reflexivity.
  by rewrite H.
Qed.

Lemma gtk_dispatch_ignores_other_modifiers_witness :
  Gtk.dispatch {| Gtk.keyval := Gtk.KEY_q; Gtk.state := 4 |}
  = Gtk.dispatch {| Gtk.keyval := Gtk.KEY_q; Gtk.state := 22 |}.
Proof.
  exact (gtk_dispatch_ignores_other_modifiers Gtk.KEY_q 4 22 eq_refl).
Defined.

(** ** White space *)

Lemma lstrip_all_space (s : list N) :
  Forall (fun c => isspace c = true) s -> lstrip s = [].
Proof. induction 1 as [|c s Hc _ IH]; simpl; [done|]. by rewrite Hc. Qed.

Lemma lstrip_head (s : list N) c t : lstrip s = c :: t -> isspace c = false.
Proof.
  induction s as [|x s IH]; simpl; [done|].
  destruct (isspace x) eqn:Hx; [done|]. by intros [= <- _].
Qed.

Lemma lstrip_split (s : list N) :
  exists sp, s = sp ++ lstrip s /\ Forall (fun c => isspace c = true) sp.
Proof.
  induction s as [|x s (sp & Hs & Hsp)]; simpl; [by exists []|].
  destruct (isspace x) eqn:Hx.
  - exists (x :: sp). split; [simpl; congruence | by constructor].
  - by exists [].
Qed.

Lemma lstrip_app_space (sp s : list N) :
  Forall (fun c => isspace c = true) sp -> lstrip (sp ++ s) = lstrip s.
Proof. induction 1 as [|c sp Hc _ IH]; simpl; [done|]. by rewrite Hc. Qed.

Lemma lstrip_nonspace (c : N) (s : list N) :
  isspace c = false -> lstrip (c :: s) = c :: s.
Proof. intros H. simpl. by rewrite H. Qed.

Lemma rstrip_split (s : list N) :
  exists sp, s = rstrip s ++ sp /\ Forall (fun c => isspace c = true) sp.
Proof.
  unfold rstrip. destruct (lstrip_split (reverse s)) as (sp & Hs & Hsp).
  exists (reverse sp). split; [|by apply Forall_reverse].
  rewrite <- reverse_app, <- Hs. by rewrite reverse_involutive.
Qed.

Lemma strip_all_space (s : list N) :
  Forall (fun c => isspace c = true) s -> strip s = [].
Proof. intros H. unfold strip. by rewrite (lstrip_all_space s H). Qed.

(** What [strip] hands back neither begins nor ends with white space. *)
Lemma strip_ends (s : list N) c t :
  strip s = c :: t ->
  isspace c = false /\ exists d, last (c :: t) = Some d /\ isspace d = false.
Proof.
  unfold strip. intros H. split.
  - destruct (rstrip_split (lstrip s)) as (sp & Hs & _). rewrite H in Hs.
    simpl in Hs. by apply (lstrip_head s c (t ++ sp)).
  - unfold rstrip in H.
    destruct (lstrip (reverse (lstrip s))) as [|d r] eqn:Hr.
    + done.
    + exists d. split; [|by apply (lstrip_head _ _ _ Hr)].
      rewrite <- H, reverse_cons. apply last_snoc.
Qed.

(** A text between white space is what [strip] hands back. *)
Lemma strip_surrounded (pre u post : list N) c d :
  Forall (fun x => isspace x = true) pre ->
  Forall (fun x => isspace x = true) post ->
  head u = Some c -> isspace c = false ->
  last u = Some d -> isspace d = false ->
  strip (pre ++ u ++ post) = u.
Proof.
  intros Hpre Hpost Hc Hcs Hd Hds. unfold strip.
  rewrite (lstrip_app_space pre _ Hpre).
  destruct u as [|c' u']; [done|]. injection Hc as ->.
  change ((c :: u') ++ post) with (c :: (u' ++ post)).
  rewrite (lstrip_nonspace c _ Hcs).
  change (c :: (u' ++ post)) with ((c :: u') ++ post).
  unfold rstrip. rewrite reverse_app.
  rewrite (lstrip_app_space (reverse post)) by (by apply Forall_reverse).
  destruct (reverse (c :: u')) as [|x r] eqn:Hr.
  - apply (f_equal reverse) in Hr. rewrite reverse_involutive in Hr. done.
  - assert (x = d) as ->.
    { apply (f_equal reverse) in Hr. rewrite reverse_involutive in Hr.
      rewrite Hr, reverse_cons, last_snoc in Hd. by injection Hd. }
    rewrite (lstrip_nonspace d r Hds), <- Hr. apply reverse_involutive.
Qed.

(** ** One key press *)


Ltac branch_cases :=
  repeat match goal with
         | |- context [if ?c then _ else _] => destruct c eqn:?
         | |- context [match read_file ?w ?p with _ => _ end] =>
             destruct (read_file w p) eqn:?
         end.

(** X7.  One key press hands at most one URL to the engine's load
    operation, and only in the four cases that are meant to navigate:
    load from tmux, load from the clipboard, the URL prompt and the
    bookmarks. *)
Theorem on_key_loads_at_most_one_url R w ft p :
  length (navigations (effects (on_key R w ft p))) <= 1
  /\ (navigations (effects (on_key R w ft p)) <> [] ->
      exists b, branch_of p = Some b
                /\ b ∈ [BLoadTmux; BLoadClipboard; BChangeUrl; BBookmarks]).
Proof.
  destruct (branch_of p) as [b|] eqn:Hb.
  - rewrite (on_key_navigations R w ft p b Hb).
    destruct p, b; cbn [run_branch Gtk.run Qt.run handled effects];
      branch_cases; cbn [effects handled]; simpl;
      (split; [lia|]); try (intros H; by destruct H);
      intros _; eexists; (split; [reflexivity|]);
      apply list_elem_of_In; simpl; auto.
  - rewrite (on_key_unmatched R w ft p Hb). simpl.
    rewrite navigations_debug_line. split; [simpl; lia | intros H; by destruct H].
Qed.

(** X8.  One key press starts at most one helper process, and that
    process is tmux or dmenu. *)
Theorem on_key_starts_at_most_one_process R w ft p :
  length (processes (effects (on_key R w ft p))) <= 1
  /\ Forall (fun argv => head argv = Some (lit "tmux")
                         \/ head argv = Some (lit "dmenu"))
       (processes (effects (on_key R w ft p))).
Proof.
  destruct (branch_of p) as [b|] eqn:Hb.
  - rewrite (on_key_processes R w ft p b Hb).
    destruct p, b; cbn [run_branch Gtk.run Qt.run handled effects];
      branch_cases; cbn [effects handled]; simpl;
      (split; [lia|]);
      repeat (apply List.Forall_cons;
              [first [left; reflexivity | right; reflexivity]|]);
      apply List.Forall_nil.
  - rewrite (on_key_unmatched R w ft p Hb). simpl.
    rewrite processes_debug_line. split; [simpl; lia | constructor].
Qed.

(** X9.  Ctrl+B with the bookmarks file present, in either shell: the
    text of the file is offered through dmenu, and the stripped
    selection is loaded whenever it is non-empty, with no test of its
    shape; an empty selection loads nothing; the handler returns
    [True]. *)
Theorem bookmark_selection_loaded_unvalidated R w ft p links :
  branch_of p = Some BBookmarks ->
  read_file w (links_path w) = Some links ->
  RunProcess dmenu_links (Some links) ∈ effects (on_key R w ft p)
  /\ navigations (effects (on_key R w ft p))
     = (if nonempty (strip (dmenu w dmenu_links links))
        then [strip (dmenu w dmenu_links links)] else [])
  /\ ret (on_key R w ft p) = RTrue.
Proof.
  intros Hp Hf.
  rewrite (on_key_navigations R w ft p _ Hp).
  rewrite (on_key_runs_branch R w ft p _ Hp).
  split; [|split].
  - simpl. apply elem_of_app. right.
    destruct p; simpl; rewrite Hf; simpl;
      apply list_elem_of_further, list_elem_of_here.
  - destruct p; simpl; rewrite Hf; simpl; by destruct (nonempty _).
  - destruct p; simpl; by rewrite Hf.
Qed.

Lemma bookmark_selection_loaded_unvalidated_witness :
  navigations (effects (on_key ascii_runtime
                          (with_bookmarks (lit " not a url ") sample_world) []
                          (gtk_press (Ctrl "b"))))
  = [lit "not a url"].
Proof.
  exact (proj1 (proj2 (bookmark_selection_loaded_unvalidated ascii_runtime
           (with_bookmarks (lit " not a url ") sample_world) []
           (gtk_press (Ctrl "b")) (lit " not a url ") eq_refl eq_refl))).
Defined.

Lemma searched_debug_line w p : searched (debug_line w p) = [].
Proof. unfold debug_line. destruct (truthy _), p; reflexivity. Qed.

Lemma on_key_searched R w ft p b :
  branch_of p = Some b ->
  searched (effects (on_key R w ft p))
  = searched (effects (run_branch R w ft p b)).
Proof.
  intros Hb. rewrite (on_key_runs_branch R w ft p b Hb). simpl.
  unfold searched. rewrite omap_app.
  fold (searched (debug_line w p)). by rewrite searched_debug_line.
Qed.

(** X10.  A dmenu answer of white space only counts as no answer: the
    URL prompt and the bookmarks prompt load nothing, and the find
    prompt neither searches nor touches the find term. *)
Theorem blank_dmenu_answer_ignored R w ft p b :
  (forall argv input, Forall (fun c => isspace c = true) (dmenu w argv input)) ->
  branch_of p = Some b ->
  b ∈ [BChangeUrl; BBookmarks; BFind] ->
  navigations (effects (on_key R w ft p)) = []
  /\ searched (effects (on_key R w ft p)) = []
  /\ slot (on_key R w ft p) = ft.
Proof.
  intros Hblank Hp Hb.
  assert (forall argv input, strip (dmenu w argv input) = []) as Hs
      by (intros; apply strip_all_space, Hblank).
  rewrite (on_key_navigations R w ft p b Hp), (on_key_searched R w ft p b Hp).
  rewrite (on_key_runs_branch R w ft p b Hp).
  apply list_elem_of_In in Hb. simpl in Hb.
  destruct Hb as [<-|[<-|[<-|[]]]]; destruct p;
    cbn [run_branch Gtk.run Qt.run before handled effects slot];
    try destruct (read_file w (links_path w));
    cbn [before handled effects slot]; rewrite ?Hs; cbn [nonempty]; done.
Qed.

Lemma blank_dmenu_answer_ignored_witness :
  slot (on_key ascii_runtime (typing (lit "   ") sample_world) (lit "old")
          (qt_press (Ctrl "f"))) = lit "old".
Proof.
  refine (proj2 (proj2 (blank_dmenu_answer_ignored ascii_runtime
            (typing (lit "   ") sample_world) (lit "old") (qt_press (Ctrl "f"))
            BFind _ eq_refl _))).
  - intros argv input. repeat constructor.
  - apply list_elem_of_In. simpl. auto.
Defined.

(** X11.  Whatever the tmux, URL-prompt and bookmarks cases hand to the
    engine's load operation neither begins nor ends with white space. *)
Theorem loaded_text_has_no_outer_white_space R w ft p b u :
  branch_of p = Some b ->
  b ∈ [BLoadTmux; BChangeUrl; BBookmarks] ->
  Load u ∈ effects (on_key R w ft p) ->
  exists c d, head u = Some c /\ isspace c = false
              /\ last u = Some d /\ isspace d = false.
Proof.
  intros Hp Hb Hu. apply elem_of_navigations in Hu.
  rewrite (on_key_navigations R w ft p b Hp) in Hu.
  assert (exists x, u = strip x /\ u <> []) as (x & -> & Hne).
  { apply list_elem_of_In in Hb. simpl in Hb.
    destruct Hb as [<-|[<-|[<-|[]]]]; destruct p;
      cbn [run_branch Gtk.run Qt.run handled effects] in Hu.
    all: try (destruct (read_file w (links_path w)) as [links|];
              cbn [effects handled] in Hu).
    all: match type of Hu with
         | context [if ?c then _ else _] => destruct c eqn:Hc
         | _ => idtac
         end; simpl in Hu;
         try (by apply elem_of_nil in Hu);
         apply list_elem_of_singleton in Hu; subst u.
    all: eexists; split; [reflexivity|].
    all: try (by apply nonempty_true).
    all: apply is_valid_url_spec in Hc as (t & [= <-] & Ht & _); exact Ht. }
  destruct (strip x) as [|c t] eqn:Hs; [done|].
  destruct (strip_ends x c t Hs) as (Hc & d & Hd & Hds).
  exists c, d. by repeat split.
Qed.

Lemma loaded_text_has_no_outer_white_space_witness :
  exists c d, head (lit "ls -la") = Some c /\ isspace c = false
              /\ last (lit "ls -la") = Some d /\ isspace d = false.
Proof.
  assert (BChangeUrl ∈ [BLoadTmux; BChangeUrl; BBookmarks]) as Hb
      by (apply list_elem_of_In; simpl; auto).
  assert (Load (lit "ls -la")
            ∈ effects (on_key ascii_runtime (typing (lit " ls -la ") sample_world) []
                         (gtk_press (Ctrl "l")))) as Hl
      by (apply list_elem_of_In; vm_compute; auto).
  exact (loaded_text_has_no_outer_white_space ascii_runtime
           (typing (lit " ls -la ") sample_world) [] (gtk_press (Ctrl "l"))
           BChangeUrl (lit "ls -la") eq_refl Hb Hl).
Defined.

Lemma space_starts_no_url (c : N) (t : list N) :
  isspace c = true -> is_valid_url (Some (c :: t)) = false.
Proof.
  intros Hc. apply is_valid_url_false. intros (u & [= <-] & _ & scheme & rest & Hin & Hu).
  apply list_elem_of_In in Hin. simpl in Hin.
  destruct Hin as [<-|[<-|[<-|[<-|[]]]]]; injection Hu as -> _; discriminate Hc.
Qed.

(** X12.  The clipboard text is not stripped, in either shell: a text
    that begins with white space is never loaded, whatever follows. *)
Theorem clipboard_text_with_leading_space_rejected R w ft p c t :
  branch_of p = Some BLoadClipboard ->
  clipboard_text w = Some (c :: t) -> isspace c = true ->
  navigations (effects (on_key R w ft p)) = [].
Proof.
  intros Hp Hclip Hc.
  rewrite (on_key_navigations R w ft p _ Hp).
  destruct (load_branch_effects R w ft p BLoadClipboard (or_intror eq_refl)) as [-> _].
  assert (fetched w p BLoadClipboard = Some (c :: t)) as ->.
  { destruct p; simpl; [done|]. unfold Qt.get_clipboard_text. by rewrite Hclip. }
  by rewrite (space_starts_no_url c t Hc).
Qed.

Lemma clipboard_text_with_leading_space_rejected_witness :
  navigations (effects (on_key ascii_runtime
     (with_clipboard (Some (lit " https://example.org/")) sample_world) []
     (qt_press (CtrlShift "g")))) = [].
Proof.
  exact (clipboard_text_with_leading_space_rejected ascii_runtime
           (with_clipboard (Some (lit " https://example.org/")) sample_world) []
           (qt_press (CtrlShift "g")) 32%N (lit "https://example.org/")
           eq_refl eq_refl eq_refl).
Defined.

(** X13.  The tmux buffer is stripped first, in either shell: a URL of
    one of the four schemes with white space around it (the newline
    that ends the buffer, say) is loaded, without the white space. *)
Theorem tmux_url_between_white_space_loaded R w ft p pre u post d :
  branch_of p = Some BLoadTmux ->
  tmux_show_buffer w = pre ++ u ++ post ->
  Forall (fun x => isspace x = true) pre ->
  Forall (fun x => isspace x = true) post ->
  is_valid_url (Some u) = true ->
  last u = Some d -> isspace d = false ->
  navigations (effects (on_key R w ft p)) = [u].
Proof.
  intros Hp Hbuf Hpre Hpost Hv Hd Hds.
  assert (exists c, head u = Some c /\ isspace c = false) as (c & Hc & Hcs).
  { apply is_valid_url_spec in Hv as (t & [= <-] & _ & scheme & rest & Hin & ->).
    apply list_elem_of_In in Hin. simpl in Hin.
    destruct Hin as [<-|[<-|[<-|[<-|[]]]]]; eexists; split; reflexivity. }
  rewrite (on_key_navigations R w ft p _ Hp).
  destruct (load_branch_effects R w ft p BLoadTmux (or_introl eq_refl)) as [-> _].
  assert (fetched w p BLoadTmux = Some u) as ->.
  { destruct p; simpl; rewrite Hbuf;
      by rewrite (strip_surrounded pre u post c d). }
  by rewrite Hv.
Qed.

Lemma tmux_url_between_white_space_loaded_witness :
  navigations (effects (on_key ascii_runtime
     (with_tmux_buffer (lit " https://example.org/" ++ [10%N]) sample_world) []
     (gtk_press (Ctrl "g")))) = [lit "https://example.org/"].
Proof.
  refine (tmux_url_between_white_space_loaded ascii_runtime
            (with_tmux_buffer (lit " https://example.org/" ++ [10%N]) sample_world) []
            (gtk_press (Ctrl "g")) [32%N] (lit "https://example.org/") [10%N] 47%N
            eq_refl eq_refl _ _ eq_refl eq_refl eq_refl).
  - repeat constructor.
  - repeat constructor.
Defined.

(** X14.  A rejected tmux or clipboard text is echoed in the printed
    line cut to its first fifty characters (or as "(empty)"), followed
    by three dots. *)
Theorem rejected_text_echoed_up_to_fifty R w ft p b :
  branch_of p = Some b ->
  b = BLoadTmux \/ b = BLoadClipboard ->
  is_valid_url (fetched w p b) = false ->
  exists intro part,
    printed (effects (on_key R w ft p)) = [intro ++ part ++ lit "..."]
    /\ length part <= 50
    /\ part = (if truthy (fetched w p b)
               then take 50 (default [] (fetched w p b)) else lit "(empty)").
Proof.
  intros Hp Hb Hv. rewrite (on_key_printed R w ft p b Hp).
  assert (length (shown (fetched w p b)) <= 50) as Hlen.
  { unfold shown. destruct (truthy _).
    - rewrite length_take. lia.
    - vm_compute. lia. }
  destruct p; destruct Hb as [-> | ->]; unfold fetched in *;
    cbn [run_branch Gtk.run Qt.run handled effects];
    rewrite Hv; eexists _, (shown _); (split; [reflexivity|]); by split.
Qed.

Lemma rejected_text_echoed_up_to_fifty_witness :
  exists intro part,
    printed (effects (on_key ascii_runtime sample_world [] (gtk_press (Ctrl "g"))))
    = [intro ++ part ++ lit "..."]
    /\ length part <= 50
    /\ part = (if truthy (fetched sample_world (gtk_press (Ctrl "g")) BLoadTmux)
               then take 50 (default [] (fetched sample_world (gtk_press (Ctrl "g"))
                                           BLoadTmux))
               else lit "(empty)").
Proof.
  exact (rejected_text_echoed_up_to_fifty ascii_runtime sample_world []
           (gtk_press (Ctrl "g")) BLoadTmux eq_refl (or_introl eq_refl) eq_refl).
Defined.


(** ** Start-up *)

Ltac split_when :=
  unfold when;
  repeat match goal with
         | |- context [if ?c then _ else _] => destruct c
         end.

Lemma gtk_context_no_setting R w name :
  final_setting name (Gtk.context R w) = None.
Proof.
  unfold final_setting, Gtk.context, Gtk.memory_pressure.
  destruct (py_int R _); split_when; reflexivity.
Qed.

Lemma final_setting_app name l1 l2 :
  final_setting name (l1 ++ l2)
  = match final_setting name l2 with
    | Some v => Some v
    | None => final_setting name l1
    end.
Proof. unfold final_setting. rewrite omap_app. apply last_app. Qed.

Lemma gtk_running_calls R w argv calls :
  Gtk.startup R w argv = Running calls ->
  exists url width height,
    calls = (Gtk.context R w ++ [NewWindow]) ++ [WindowSize width height]
            ++ Gtk.view_settings w ++ [FirstLoad url; ShowWindow; MainLoop].
Proof.
  unfold Gtk.startup. destruct argv as [|prog [|url rest]]; try done.
  destruct (bool_decide _); [done|].
  destruct (parse_size R _) as [[width height]|]; [|done].
  destruct (c_int width && c_int height); [|done].
  intros [= <-]. by exists url, width, height.
Qed.

Lemma gtk_final_setting_running R w argv calls name :
  Gtk.startup R w argv = Running calls ->
  final_setting name calls = final_setting name (Gtk.view_settings w).
Proof.
  intros (url & width & height & ->)%gtk_running_calls.
  rewrite !final_setting_app, gtk_context_no_setting.
  by destruct (final_setting name (Gtk.view_settings w)).
Qed.

(** X16.  The GTK shell with DBROWSER_MEMORY_LIMIT a non-empty string
    of ASCII digits, within the interpreter's digit limit and with a
    value that the unsigned C integer of [set_memory_limit] holds: the
    memory pressure settings attached to the fresh data manager carry
    the decimal value of the string as ceiling, with kill, strict and
    conservative thresholds 0.95, 0.85 and 0.7; no other ceiling is set,
    and [ctx] is the context built on that data manager. *)
Theorem gtk_decimal_memory_limit_configured R w ds :
  getenv w "DBROWSER_MEMORY_LIMIT" = Some ds ->
  ds <> [] -> Forall (fun c => is_digit c = true) ds ->
  int_max_str_digits R = 0 \/ length ds <= int_max_str_digits R ->
  c_uint (decimal_value ds) = true ->
  memory_limits (Gtk.context R w) = [decimal_value ds]
  /\ exists rest,
       Gtk.context R w
       = NewDataManager :: MemoryLimit (decimal_value ds)
         :: KillThreshold (95 # 100) :: StrictThreshold (85 # 100)
         :: ConservativeThreshold (7 # 10) :: AttachMemoryPressure
         :: ContextWithDataManager :: rest.
Proof.
  intros Hv Hne Hd Hlim _.
  pose proof (py_int_decimal R ds Hne Hd Hlim) as Hi.
  split; [|by apply (gtk_memory_limit_configured R w ds)].
  unfold Gtk.context, Gtk.memory_pressure. rewrite Hv.
  apply nonempty_true in Hne. cbn [truthy default]. simpl. rewrite Hne, Hi.
  unfold memory_limits. split_when; reflexivity.
Qed.

Lemma gtk_decimal_memory_limit_configured_witness :
  memory_limits (Gtk.context ascii_runtime
                   (setenv sample_world "DBROWSER_MEMORY_LIMIT" (lit "256")))
  = [256%Z].
Proof.
  refine (proj1 (gtk_decimal_memory_limit_configured ascii_runtime
            (setenv sample_world "DBROWSER_MEMORY_LIMIT" (lit "256")) (lit "256")
            eq_refl _ _ _ eq_refl)).
  - discriminate.
  - repeat constructor.
  - right. vm_compute. lia.
Defined.

Lemma gtk_view_settings_no_memory_limit w :
  memory_limits (Gtk.view_settings w) = [].
Proof. unfold Gtk.view_settings, memory_limits. split_when; reflexivity. Qed.

Lemma gtk_context_no_window_size R w : window_sizes (Gtk.context R w) = [].
Proof.
  unfold window_sizes, Gtk.context, Gtk.memory_pressure.
  destruct (py_int R _); split_when; reflexivity.
Qed.

Lemma gtk_view_settings_no_window_size w : window_sizes (Gtk.view_settings w) = [].
Proof. unfold window_sizes, Gtk.view_settings. split_when; reflexivity. Qed.

(** X17.  The GTK shell with a DBROWSER_MEMORY_LIMIT that [int] does
    not accept, and a window size that reads well and that C integers
    hold: the error is swallowed and no memory ceiling is set, [ctx] is
    still built on the fresh data manager, and the start-up goes on to
    the event loop with the window size asked for. *)
Theorem gtk_malformed_memory_limit_still_starts R w v prog url rest width height :
  url ∉ [lit "-h"; lit "--help"] ->
  getenv w "DBROWSER_MEMORY_LIMIT" = Some v -> v <> [] ->
  py_int R v = None ->
  parse_size R (getenv_default w "DBROWSER_SIZE" (lit "800x600")) = Some (width, height) ->
  c_int width = true -> c_int height = true ->
  exists calls,
    Gtk.startup R w (prog :: url :: rest) = Running calls
    /\ memory_limits calls = []
    /\ ContextWithDataManager ∈ calls
    /\ window_sizes calls = [(width, height)].
Proof.
  intros Hh Hv Hne Hi Hs Hwidth Hheight.
  destruct (gtk_malformed_memory_limit_ignored R w v Hv Hne Hi) as (tl & Hctx & Hml).
  unfold Gtk.startup. rewrite (not_help_flag url Hh), Hs, Hwidth, Hheight.
  eexists. split; [reflexivity|]. split; [|split].
  - unfold memory_limits in *. rewrite !omap_app, Hml.
    fold (memory_limits (Gtk.view_settings w)).
    by rewrite gtk_view_settings_no_memory_limit.
  - rewrite Hctx. apply list_elem_of_further, list_elem_of_here.
  - unfold window_sizes. rewrite !omap_app.
    fold (window_sizes (Gtk.context R w)). fold (window_sizes (Gtk.view_settings w)).
    by rewrite gtk_context_no_window_size, gtk_view_settings_no_window_size.
Qed.

Lemma gtk_malformed_memory_limit_still_starts_witness :
  exists calls,
    Gtk.startup ascii_runtime (setenv sample_world "DBROWSER_MEMORY_LIMIT" (lit "1GB"))
      [lit "browser.py"; lit "https://example.org/"] = Running calls
    /\ memory_limits calls = []
    /\ ContextWithDataManager ∈ calls
    /\ window_sizes calls = [(800, 600)%Z].
Proof.
  refine (gtk_malformed_memory_limit_still_starts ascii_runtime
            (setenv sample_world "DBROWSER_MEMORY_LIMIT" (lit "1GB"))
            (lit "1GB") (lit "browser.py") (lit "https://example.org/") []
            800%Z 600%Z _ eq_refl _ eq_refl eq_refl eq_refl eq_refl).
  - apply not_listed. reflexivity.
  - discriminate.
Defined.

(** A size that reads well and that a C integer does not hold stops
    both shells where the window is sized. *)
Example oversized_window_aborts :
  let w := setenv sample_world "DBROWSER_SIZE" (lit "99999999999x1") in
  let argv := [lit "browser.py"; lit "https://example.org/"] in
  parse_size ascii_runtime (lit "99999999999x1") = Some (99999999999, 1)%Z
  /\ Gtk.startup ascii_runtime w argv
     = Crash [DefaultContext; NoThirdPartyCookies; NewWindow]
  /\ exists calls, Qt.startup ascii_runtime w argv = Crash calls
                   /\ last calls = Some NewWindow.
Proof. split; [reflexivity|]. split; [reflexivity|]. eexists. split; reflexivity. Qed.

(** X18.  In the GTK shell DBROWSER_CACHE_DIR is honoured only while
    DBROWSER_MEMORY_LIMIT is unset or empty: with a memory limit set
    (well formed or not) no disk cache directory is configured. *)
Theorem gtk_memory_limit_drops_cache_dir R w :
  disk_cache_dirs (Gtk.context R w)
  = if truthy (getenv w "DBROWSER_MEMORY_LIMIT") then []
    else if truthy (getenv w "DBROWSER_CACHE_DIR")
         then [expanduser w (default [] (getenv w "DBROWSER_CACHE_DIR"))]
         else [].
Proof.
  unfold Gtk.context, Gtk.memory_pressure, disk_cache_dirs.
  destruct (truthy (getenv w "DBROWSER_MEMORY_LIMIT")).
  - destruct (py_int R _); split_when; reflexivity.
  - split_when; reflexivity.
Qed.

(** X19.  The toggles of the GTK shell once its start-up runs: the
    page cache ends up on with DBROWSER_FAST even when DBROWSER_LOW_MEM
    turned it off before, and off with DBROWSER_LOW_MEM alone; WebGL
    ends up on exactly with DBROWSER_WEBGL; JavaScript and image
    loading are only ever turned off, by DBROWSER_NO_JS and
    DBROWSER_NO_IMAGES. *)
Theorem gtk_toggles R w argv calls :
  Gtk.startup R w argv = Running calls ->
  final_setting "enable_page_cache" calls
    = (if truthy (getenv w "DBROWSER_FAST") then Some true
       else if truthy (getenv w "DBROWSER_LOW_MEM") then Some false else None)
  /\ final_setting "enable_webgl" calls = Some (truthy (getenv w "DBROWSER_WEBGL"))
  /\ final_setting "enable_javascript" calls
     = (if truthy (getenv w "DBROWSER_NO_JS") then Some false else None)
  /\ final_setting "auto_load_images" calls
     = (if truthy (getenv w "DBROWSER_NO_IMAGES") then Some false else None).
Proof.
  intros Hrun. rewrite !(gtk_final_setting_running R w argv calls _ Hrun).
  unfold Gtk.view_settings, final_setting, when.
  destruct (truthy (getenv w "DBROWSER_FAST")), (truthy (getenv w "DBROWSER_LOW_MEM")),
    (truthy (getenv w "DBROWSER_WEBGL")), (truthy (getenv w "DBROWSER_NO_JS")),
    (truthy (getenv w "DBROWSER_NO_IMAGES")); repeat split; reflexivity.
Qed.

Lemma gtk_toggles_witness :
  final_setting "enable_page_cache"
    (calls_of (Gtk.startup ascii_runtime
                 (setenv (setenv sample_world "DBROWSER_LOW_MEM" (lit "1"))
                    "DBROWSER_FAST" (lit "1"))
                 [lit "browser.py"; lit "https://example.org/"]))
  = Some true.
Proof.
  refine (eq_trans (proj1 (gtk_toggles ascii_runtime
            (setenv (setenv sample_world "DBROWSER_LOW_MEM" (lit "1"))
               "DBROWSER_FAST" (lit "1"))
            [lit "browser.py"; lit "https://example.org/"] _ eq_refl)) _).
  reflexivity.
Defined.

(** X20.  What no environment variable changes in the settings of the
    GTK view: once the start-up runs, access from file URLs to files
    and to other origins, clipboard access and automatic window opening
    by scripts, plugins and hyperlink auditing are off, and the user
    agent is Mozilla/5.0. *)
Theorem gtk_fixed_restrictions R w argv calls :
  Gtk.startup R w argv = Running calls ->
  Forall (fun name => final_setting name calls = Some false)
    ["allow_file_access_from_file_urls"; "allow_universal_access_from_file_urls";
     "javascript_can_access_clipboard"; "javascript_can_open_windows_automatically";
     "enable_plugins"; "enable_hyperlink_auditing"]
  /\ UserAgent (lit "Mozilla/5.0") ∈ calls
  /\ (forall ua, UserAgent ua ∈ calls -> ua = lit "Mozilla/5.0").
Proof.
  intros Hrun. split; [|split].
  - repeat (apply List.Forall_cons;
            [rewrite (gtk_final_setting_running R w argv calls _ Hrun);
             unfold Gtk.view_settings, final_setting; split_when; reflexivity|]).
    apply List.Forall_nil.
  - apply gtk_running_calls in Hrun as (url & width & height & ->).
    rewrite !elem_of_app. right. right. left.
    unfold Gtk.view_settings. rewrite !elem_of_app. do 6 right.
    apply list_elem_of_here.
  - apply gtk_running_calls in Hrun as (url & width & height & ->).
    intros ua Hua. apply list_elem_of_In in Hua.
    unfold Gtk.context, Gtk.memory_pressure, Gtk.view_settings in Hua.
    rewrite !in_app_iff in Hua.
    assert (forall c l, In (UserAgent ua) (when c l) -> In (UserAgent ua) l) as Hw.
    { intros [] l; [done|intros []]. }
    repeat match type of Hua with
           | _ \/ _ => destruct Hua as [Hua|Hua]
           | In _ (when _ _) => apply Hw in Hua
           | In _ (if ?c then _ else _) => destruct c
           | In _ (match ?c with _ => _ end) => destruct c
           | In _ (_ ++ _) => apply in_app_iff in Hua
           | In _ (_ :: _) => destruct Hua as [Hua|Hua]; [try discriminate Hua|]
           | In _ [] => destruct Hua
           end; try (by injection Hua).
Qed.

Lemma gtk_fixed_restrictions_witness :
  UserAgent (lit "Mozilla/5.0")
    ∈ calls_of (Gtk.startup ascii_runtime
                  (setenv sample_world "DBROWSER_WEBGL" (lit "1"))
                  [lit "browser.py"; lit "https://example.org/"]).
Proof.
  exact (proj1 (proj2 (gtk_fixed_restrictions ascii_runtime
           (setenv sample_world "DBROWSER_WEBGL" (lit "1"))
           [lit "browser.py"; lit "https://example.org/"] _ eq_refl))).
Defined.

Lemma qt_running_calls R w argv calls :
  Qt.startup R w argv = Running calls ->
  exists pre width height,
    (forall name, final_setting name pre = None)
    /\ calls = pre ++ Qt.page_settings w ++ [StartPollTimer 500; ShowWindow; MainLoop]
    /\ window_sizes calls = [(width, height)].
Proof.
  unfold Qt.startup. destruct argv as [|prog [|url rest]]; try done.
  destruct (bool_decide _); [done|].
  destruct (parse_size R _) as [[width height]|]; [|done].
  destruct (c_int width && c_int height); [|done].
  intros [= <-].
  eexists (_ ++ [NewView] ++ Qt.profile w ++ [NewWindow; WindowSize width height]),
    width, height.
  assert (forall name,
            final_setting name
              ([SetEnvDefault "QT_QUICK_BACKEND" (lit "software");
                SetEnvDefault "QTWEBENGINE_DISABLE_GPU" (lit "1");
                SetEnvDefault "QTWEBENGINE_CHROMIUM_FLAGS"
                  (lit "--disable-gpu --disable-software-rasterizer");
                NewApplication] ++ [NewView] ++ Qt.profile w
               ++ [NewWindow; WindowSize width height]) = None) as Hpre.
  { intros name. unfold final_setting, Qt.profile. split_when; reflexivity. }
  split; [apply Hpre|]. split.
  - rewrite <- !app_assoc. simpl. by rewrite <- !app_assoc.
  - unfold window_sizes, Qt.profile, Qt.page_settings. split_when; reflexivity.
Qed.

(** X21.  The settings of the Qt shell once its start-up runs:
    JavaScript is on unless DBROWSER_NO_JS is set; images are off with
    DBROWSER_NO_IMAGES, also under DBROWSER_LOW_MEM; WebGL is touched
    only by DBROWSER_WEBGL; and, whatever the environment, plugins are
    on while insecure content and access from local content to remote
    and file URLs are off. *)
Theorem qt_settings R w argv calls :
  Qt.startup R w argv = Running calls ->
  final_setting "JavascriptEnabled" calls
    = Some (negb (truthy (getenv w "DBROWSER_NO_JS")))
  /\ final_setting "AutoLoadImages" calls
     = (if truthy (getenv w "DBROWSER_NO_IMAGES") then Some false
        else if truthy (getenv w "DBROWSER_LOW_MEM") then Some true else None)
  /\ final_setting "WebGLEnabled" calls
     = (if truthy (getenv w "DBROWSER_WEBGL") then Some true else None)
  /\ final_setting "PluginsEnabled" calls = Some true
  /\ Forall (fun name => final_setting name calls = Some false)
       ["AllowRunningInsecureContent"; "AllowGeolocationOnInsecureOrigins";
        "LocalContentCanAccessRemoteUrls"; "LocalContentCanAccessFileUrls"].
Proof.
  intros (pre & width & height & Hpre & -> & _)%qt_running_calls.
  assert (forall name,
            final_setting name
              (pre ++ Qt.page_settings w ++ [StartPollTimer 500; ShowWindow; MainLoop])
            = final_setting name (Qt.page_settings w)) as Hfs.
  { intros name. rewrite !final_setting_app, Hpre.
    change (final_setting name [StartPollTimer 500; ShowWindow; MainLoop]) with (@None bool).
    by destruct (final_setting name (Qt.page_settings w)). }
  rewrite !Hfs. repeat split.
  1-4: unfold Qt.page_settings, final_setting, when;
    destruct (truthy (getenv w "DBROWSER_NO_JS")),
      (truthy (getenv w "DBROWSER_NO_IMAGES")),
      (truthy (getenv w "DBROWSER_LOW_MEM")),
      (truthy (getenv w "DBROWSER_WEBGL")); reflexivity.
  repeat (apply List.Forall_cons;
          [rewrite Hfs; unfold Qt.page_settings, final_setting;
           split_when; reflexivity|]).
  apply List.Forall_nil.
Qed.

Lemma qt_settings_witness :
  final_setting "AutoLoadImages"
    (calls_of (Qt.startup ascii_runtime
                 (setenv (setenv sample_world "DBROWSER_LOW_MEM" (lit "1"))
                    "DBROWSER_NO_IMAGES" (lit "1"))
                 [lit "qtbrowser.py"; lit "https://example.org/"]))
  = Some false.
Proof.
  refine (eq_trans (proj1 (proj2 (qt_settings ascii_runtime
            (setenv (setenv sample_world "DBROWSER_LOW_MEM" (lit "1"))
               "DBROWSER_NO_IMAGES" (lit "1"))
            [lit "qtbrowser.py"; lit "https://example.org/"] _ eq_refl))) _).
  reflexivity.
Defined.

(** ** The window size *)







(** ** Downloads *)

(** X23.  The Qt download handler joins the download directory and the
    suggested file name with [os.path.join]: a suggested name that
    begins with '/' replaces the directory altogether; any other name is
    put behind the directory, with a '/' between exactly when the
    directory does not end with one already; no suggested name means
    "download".  With an empty download directory [os.makedirs] raises
    and no target is set. *)
Theorem qt_download_target w (suggested : list N) :
  let name := if nonempty suggested then suggested else lit "download" in
  let dir := download_dir w in
  (dir = [] -> download_targets (QtLater.handle_download w suggested) = [])
  /\ (dir <> [] ->
      exists target,
        download_targets (QtLater.handle_download w suggested) = [target]
        /\ (head name = Some 47%N -> target = name)
        /\ (head name <> Some 47%N -> last dir = Some 47%N ->
            target = dir ++ name)
        /\ (head name <> Some 47%N -> last dir <> Some 47%N ->
            target = dir ++ lit "/" ++ name)).
Proof.
  intros name dir. unfold QtLater.handle_download, py_or. fold name dir.
  clearbody dir name.
  split; [by intros ->|]. intros Hdir%nonempty_true.
  rewrite Hdir. eexists. split; [reflexivity|]. unfold path_join.
  rewrite Hdir.
  assert (startswith name (lit "/") = true <-> head name = Some 47%N) as Hsw.
  { rewrite startswith_spec. split.
    - intros [r ->]. reflexivity.
    - destruct name as [|c r]; [done|]. intros [= ->]. by exists r. }
  assert (ends_with_sep dir = true <-> last dir = Some 47%N) as Hend.
  { unfold ends_with_sep. destruct (last dir) as [c|]; [|done].
    rewrite N.eqb_eq. split; [by intros ->|by intros [= ->]]. }
  destruct (startswith name (lit "/")) eqn:Hs.
  - split; [done|]. split; intros Hn; destruct Hn; by apply Hsw.
  - split; [intros Hh; apply Hsw in Hh; done|].
    cbn [negb orb]. destruct (ends_with_sep dir) eqn:He.
    + split; [done|]. intros _ Hl. destruct Hl. by apply Hend.
    + split; [|done]. intros _ Hl. apply Hend in Hl. done.
Qed.

Lemma hex_digit_alnum n : (n < 16)%N -> ascii_isalnum (hex_digit n) = true.
Proof.
  intros Hn. unfold hex_digit, ascii_isalnum, in_range.
  destruct (N.ltb_spec n 10) as [Hlt|Hge].
  - apply orb_true_iff; left. apply orb_true_iff; left.
    apply andb_true_iff. split; apply N.leb_le; lia.
  - apply orb_true_iff; left. apply orb_true_iff; right.
    apply andb_true_iff. split; apply N.leb_le; lia.
Qed.

Lemma utf8_encode_char_bytes c bs :
  utf8_encode_char c = Some bs -> Forall (fun b => (b < 256)%N) bs.
Proof.
  unfold utf8_encode_char, in_range.
  destruct (N.ltb_spec c 0x80); [intros [= <-]; repeat constructor; lia|].
  destruct (N.ltb_spec c 0x800).
  { intros [= <-].
    assert (c / 64 < 32)%N by (apply N.Div0.div_lt_upper_bound; lia).
    assert (c mod 64 < 64)%N by (apply N.mod_lt; lia).
    repeat constructor; lia. }
  destruct ((0xD800 <=? c)%N && (c <=? 0xDFFF)%N); [done|].
  destruct (N.ltb_spec c 0x10000).
  { intros [= <-].
    assert (c / 4096 < 16)%N by (apply N.Div0.div_lt_upper_bound; lia).
    assert ((c / 64) mod 64 < 64)%N by (apply N.mod_lt; lia).
    assert (c mod 64 < 64)%N by (apply N.mod_lt; lia).
    repeat constructor; lia. }
  destruct (N.ltb_spec c 0x110000); [|done].
  intros [= <-].
  assert (c / 262144 < 8)%N by (apply N.Div0.div_lt_upper_bound; lia).
  assert ((c / 4096) mod 64 < 64)%N by (apply N.mod_lt; lia).
  assert ((c / 64) mod 64 < 64)%N by (apply N.mod_lt; lia).
  assert (c mod 64 < 64)%N by (apply N.mod_lt; lia).
  repeat constructor; lia.
Qed.

Lemma utf8_encode_bytes (s bs : list N) :
  utf8_encode s = Some bs -> Forall (fun b => (b < 256)%N) bs.
Proof.
  unfold utf8_encode. destruct (mapM utf8_encode_char s) as [bss|] eqn:Hm; [|done].
  intros [= <-]. apply mapM_Some in Hm.
  induction Hm as [|c cs s' bss' Hc _ IH]; simpl; [constructor|].
  apply Forall_app. split; [by eapply utf8_encode_char_bytes | done].
Qed.

Lemma quoter_chars b : (b < 256)%N -> Forall uri_char (quoter b).
Proof.
  intros Hb. unfold quoter.
  destruct (always_safe b) eqn:Hs; simpl.
  - apply List.Forall_cons; [by left | apply List.Forall_nil].
  - destruct (N.eqb_spec b 47) as [->|_].
    + apply List.Forall_cons; [right; by left | apply List.Forall_nil].
    + assert (b / 16 < 16)%N by (apply N.Div0.div_lt_upper_bound; lia).
      assert (b mod 16 < 16)%N by (apply N.mod_lt; lia).
      apply List.Forall_cons; [right; by right|].
      apply List.Forall_cons;
        [left; unfold always_safe; by rewrite hex_digit_alnum|].
      apply List.Forall_cons;
        [left; unfold always_safe; by rewrite hex_digit_alnum|].
      apply List.Forall_nil.
Qed.

Lemma quote_chars (s q : list N) : quote s = Some q -> Forall uri_char q.
Proof.
  unfold quote. destruct (utf8_encode s) as [bs|] eqn:Hu; [|done].
  simpl. intros [= <-]. apply utf8_encode_bytes in Hu.
  induction Hu as [|b bs Hb _ IH]; simpl; [constructor|].
  apply Forall_app. split; [by apply quoter_chars | done].
Qed.

Lemma always_safe_ascii c : always_safe c = true \/ c = 47%N -> (c <? 0x80)%N = true.
Proof.
  intros [H| ->]; [|reflexivity]. apply N.ltb_lt.
  unfold always_safe, ascii_isalnum, in_range in H.
  change (lit "_.-~") with [95%N; 46%N; 45%N; 126%N] in H.
  apply orb_true_iff in H as [H|H].
  - repeat (apply orb_true_iff in H as [H|H]);
      apply andb_true_iff in H as [_ H]; apply N.leb_le in H; lia.
  - apply bool_decide_eq_true in H.
    repeat (apply elem_of_cons in H as [->|H]; [lia|]). by apply elem_of_nil in H.
Qed.

Lemma mjoin_singletons (s : list N) : mjoin ((fun c => [c]) <$> s) = s.
Proof.
  induction s as [|c s IH]; [done|].
  change (c :: mjoin ((fun c => [c]) <$> s) = c :: s). by rewrite IH.
Qed.

Lemma mjoin_quoter_safe (s : list N) :
  Forall (fun c => always_safe c = true \/ c = 47%N) s -> mjoin (quoter <$> s) = s.
Proof.
  induction 1 as [|c s Hc _ IH]; [done|].
  change (quoter c ++ mjoin (quoter <$> s) = c :: s). rewrite IH.
  unfold quoter. destruct Hc as [-> | ->]; [done|]. by rewrite orb_true_r.
Qed.

Lemma quote_safe (s : list N) :
  Forall (fun c => always_safe c = true \/ c = 47%N) s -> quote s = Some s.
Proof.
  intros Hs. unfold quote, utf8_encode.
  assert (mapM utf8_encode_char s = Some ((fun c => [c]) <$> s)) as ->.
  { induction Hs as [|c s Hc _ IH]; [done|]. cbn [mapM]. rewrite IH.
    unfold utf8_encode_char. by rewrite (always_safe_ascii c Hc). }
  change (Some (mjoin (quoter <$> mjoin ((fun c => [c]) <$> s))) = Some s).
  by rewrite mjoin_singletons, (mjoin_quoter_safe s Hs).
Qed.

(** X24.  The GTK download handler, when it returns [True], hands the
    engine the URI file:// followed by the quoted destination
    <download-dir>/<suggested name or "download">: the quoted part
    consists of letters, digits, [_.-~], '/' and '%' only, and a
    destination made of letters, digits, [_.-~] and '/' is passed on
    unchanged.  The suggested name is not sanitised: its '/' survive. *)
Theorem gtk_download_uri w (suggested : option (list N)) calls :
  GtkLater.on_decide_destination w suggested = (calls, Some true) ->
  let dest := download_dir w ++ lit "/"
              ++ (if truthy suggested then default [] suggested else lit "download") in
  exists q,
    download_targets calls = [lit "file://" ++ q]
    /\ quote dest = Some q
    /\ Forall uri_char q
    /\ (Forall (fun c => always_safe c = true \/ c = 47%N) dest -> q = dest).
Proof.
  intros H dest. unfold GtkLater.on_decide_destination in H.
  destruct (nonempty (download_dir w)); [|by injection H].
  assert (py_or suggested (lit "download")
          = if truthy suggested then default [] suggested else lit "download") as Hor.
  { unfold py_or, truthy. destruct suggested as [t|]; [|done]. by destruct (nonempty t). }
  rewrite Hor in H. fold dest in H.
  destruct (quote dest) as [q|] eqn:Hq; [|by injection H].
  injection H as <-. exists q. split; [reflexivity|]. split; [done|].
  split; [by eapply quote_chars|].
  intros Hsafe. rewrite (quote_safe dest Hsafe) in Hq. by injection Hq.
Qed.

Lemma gtk_download_uri_witness :
  download_targets (GtkLater.on_decide_destination sample_world
                      (Some (lit "annual report.pdf"))).1
  = [lit "file:///home/u/Downloads/annual%20report.pdf"].
Proof.
  destruct (gtk_download_uri sample_world (Some (lit "annual report.pdf"))
              (GtkLater.on_decide_destination sample_world
                 (Some (lit "annual report.pdf"))).1 eq_refl)
    as (q & Ht & Hq & _).
  rewrite Ht. vm_compute in Hq. injection Hq as <-. reflexivity.
Defined.

(** ** Saved pages *)




(** X26.  Sanitising a title is idempotent: a title that went through
    it once (in particular one made of letters, digits, '-' and '_')
    is left as it is, so saving under the sanitised title gives the
    same path as saving under the title itself. *)
Theorem sanitised_title_is_stable R w (title ext : list N) :
  safe_char R <$> (safe_char R <$> title) = safe_char R <$> title
  /\ get_save_path R w (safe_char R <$> title) ext = get_save_path R w title ext.
Proof.
  assert (forall c, safe_char R (safe_char R c) = safe_char R c) as Hidem.
  { intros c. rewrite (safe_char_spec R c). case_bool_decide as Hk.
    - rewrite safe_char_spec. by rewrite bool_decide_eq_true_2.
    - rewrite safe_char_spec. rewrite bool_decide_eq_true_2; [done|]. by right; right. }
  assert (safe_char R <$> (safe_char R <$> title) = safe_char R <$> title) as Hs.
  { rewrite <- list_fmap_compose. apply list_fmap_ext. intros _ c _. apply Hidem. }
  split; [exact Hs|]. unfold get_save_path. by rewrite Hs.
Qed.

Example qt_download_target_samples :
  download_targets (QtLater.handle_download sample_world (lit "a.txt"))
    = [lit "/home/u/Downloads/a.txt"]
  /\ download_targets (QtLater.handle_download sample_world (lit "/etc/passwd"))
    = [lit "/etc/passwd"]
  /\ download_targets (QtLater.handle_download sample_world [])
    = [lit "/home/u/Downloads/download"]
  /\ download_targets
       (QtLater.handle_download
          (setenv sample_world "DBROWSER_DOWNLOAD_DIR" (lit "/tmp/")) (lit "a.txt"))
    = [lit "/tmp/a.txt"].
Proof. repeat split; reflexivity. Qed.
